(** * telepager: the incremental fetcher and the record-to-page pipeline

    A shallow embedding of [telepager/manager.py] and of the builder of
    [examples/filtered.py].

    Python lists are mutable objects that the code passes around by
    reference ([filter_lines_by_quality] hands back the very list it was
    given when it passes through, and [build_page_book] hands what it
    got on to the builder and to the page sizer), so lists live in a
    store and the code manipulates locations.  Exceptions leave the mutations made before
    them in place, so a computation maps a state to the next state and
    either a value or the exception that was raised. *)

From Stdlib Require Import ZArith QArith Qround Ascii.
From stdpp Require Import gmap strings list pretty.

Local Open Scope Z_scope.

(** ** Exceptions and outcomes *)

(** The exceptions the pipeline can meet, by what an [except] clause can
    tell apart: [RuntimeError] stands for every instance of that class,
    its subclasses included, and carries its message. *)
Inductive exn : Type :=
| StopAsyncIteration
| RuntimeError (message : string)
| OtherException (name : string).

(** What an async generator raises when it is advanced while it is
    already running. *)
Definition reentrancy_violation : exn :=
  RuntimeError "anext(): asynchronous generator is already running".

Inductive outcome (A : Type) : Type :=
| Return (a : A)
| Raise (e : exn).
Arguments Return {A} a.
Arguments Raise {A} e.

#[global] Instance outcome_ret : MRet outcome := fun A a => Return a.
#[global] Instance outcome_bind : MBind outcome := fun A B k m =>
  match m with
  | Return a => k a
  | Raise e => Raise e
  end.

(** A computation over a state [Σ]: the state after it, and its outcome.
    The state is kept when an exception is raised. *)
Definition St (Σ A : Type) : Type := Σ → Σ * outcome A.

#[global] Instance St_ret {Σ} : MRet (St Σ) := fun A a σ => (σ, Return a).
#[global] Instance St_bind {Σ} : MBind (St Σ) := fun A B k m σ =>
  match m σ with
  | (σ', Return a) => k a σ'
  | (σ', Raise e) => (σ', Raise e)
  end.

Definition raise {Σ A} (e : exn) : St Σ A := fun σ => (σ, Raise e).
Definition lift_outcome {Σ A} (r : outcome A) : St Σ A := fun σ => (σ, r).
Definition gets {Σ A} (f : Σ → A) : St Σ A := fun σ => (σ, Return (f σ)).
Definition modify {Σ} (f : Σ → Σ) : St Σ () := fun σ => (f σ, Return ()).

(** ** Data model (structs.py, flag.py) *)

Abbreviation loc := nat.

(** Modelled from the spec: structs.py is not among the sources at hand.
    A page is [{ text: string }]; the builders make one with [Page(text)]. *)
Record Page : Type := { page_text : string }.

(** Modelled from the spec: a page book is an ordered sequence of pages. *)
Definition PageBook : Type := list Page.

(** Modelled from the spec: flag.py is not among the sources at hand.  A
    flag type is a bit-flag enumeration with a strict validating
    constructor from raw integers.  The filter uses it through that
    constructor only: [None] is the [ValueError] of [boundary=STRICT],
    [Some v] the value of the member that was built. *)
Definition FLAG_T : Type := Z → option Z.

(** What the name [asked_quality] is bound to inside the filter loop: the
    integer it was called with, or, once the assignment in the loop has
    run, a member of the flag type. *)
Inductive quality_arg : Type :=
| IntArg (value : Z)
| FlagArg (value : Z).

(** Calling an enum class on one of its own members returns that member;
    on an integer it validates. *)
Definition call_flag (quality_t : FLAG_T) (v : quality_arg) : option Z :=
  match v with
  | FlagArg m => Some m
  | IntArg z => quality_t z
  end.

(** [a in q] on two members of a flag type. *)
Definition flag_contains (q a : Z) : bool := Z.land a q =? a.

(** The result of [order_by]: the [NotImplemented] singleton or a list. *)
Inductive order_result : Type :=
| NotImplemented
| Lines (l : loc).

Section Model.
Context {T : Type}.

(** Modelled from the spec: structs.py is not among the sources at hand.
    A record is [{ text: string, quality: bitmask(int), meta: T }]; the
    example makes one with [Line(text=.., quality=.., meta=..)]. *)
Record Line : Type := { text : string; quality : Z; meta : T }.

(** The store of list objects is a [gmap loc (list Line)]; reading a
    location that holds no list gives the empty list. *)
Definition read_list (l : loc) : St (gmap loc (list Line)) (list Line) :=
  gets (fun h => h !!! l).
Definition write_list (l : loc) (v : list Line) : St (gmap loc (list Line)) () :=
  modify (fun h => <[l := v]> h).
Definition alloc_list (v : list Line) : St (gmap loc (list Line)) loc :=
  fun h => let l := fresh (dom h) in (<[l := v]> h, Return l).

(** *** Fetcher *)

Section Fetcher.
(** The lazy source: its state and what one [__anext__] does to it. *)
Context {S : Type} (anext : S → S * outcome Line).

Record Fetcher : Type := {
  lines : loc;
  incremental_fetching_step : Z;
  _average_page_size : Z;
  _iter : S;
  _iter_is_alive : bool
}.

Record world : Type := { heap : gmap loc (list Line); fetcher : Fetcher }.

Definition lift_heap {A} (c : St (gmap loc (list Line)) A) : St world A :=
  fun w => let '(h, r) := c (heap w) in ({| heap := h; fetcher := fetcher w |}, r).

Definition set_iter (s : S) : St world () :=
  modify (fun w =>
    let f := fetcher w in
    {| heap := heap w;
       fetcher := {| lines := lines f;
                     incremental_fetching_step := incremental_fetching_step f;
                     _average_page_size := _average_page_size f;
                     _iter := s;
                     _iter_is_alive := _iter_is_alive f |} |}).

Definition set_iter_is_alive (b : bool) : St world () :=
  modify (fun w =>
    let f := fetcher w in
    {| heap := heap w;
       fetcher := {| lines := lines f;
                     incremental_fetching_step := incremental_fetching_step f;
                     _average_page_size := _average_page_size f;
                     _iter := _iter f;
                     _iter_is_alive := b |} |}).

Definition set_average_page_size (n : Z) : St world () :=
  modify (fun w =>
    let f := fetcher w in
    {| heap := heap w;
       fetcher := {| lines := lines f;
                     incremental_fetching_step := incremental_fetching_step f;
                     _average_page_size := n;
                     _iter := _iter f;
                     _iter_is_alive := _iter_is_alive f |} |}).

(** [Fetcher.__init__]: a new empty list, no average, a live source. *)
Definition Fetcher_init (incremental_fetching_step : Z) (iter : S)
    (h : gmap loc (list Line)) : world :=
  let l := fresh (dom h) in
  {| heap := <[l := []]> h;
     fetcher := {| lines := l;
                   incremental_fetching_step := incremental_fetching_step;
                   _average_page_size := 0;
                   _iter := iter;
                   _iter_is_alive := true |} |}.

(** [await self._iter.__anext__()] inside the [try]: the source is
    advanced and what it did is handed to the handler. *)
Definition try_anext : St world (outcome Line) :=
  f ← gets fetcher;
  let '(s, r) := anext (_iter f) in
  set_iter s;;
  mret r.

(** [self.lines.append(elem)] *)
Definition lines_append (elem : Line) : St world () :=
  f ← gets fetcher;
  lift_heap (contents ← read_list (lines f);
             write_list (lines f) (contents ++ [elem])).

(** [except (StopAsyncIteration, RuntimeError)] *)
Definition caught (e : exn) : bool :=
  match e with
  | StopAsyncIteration | RuntimeError _ => true
  | OtherException _ => false
  end.

(** The body of [for _ in range(1, step)], for the iterations left. *)
Fixpoint fetch_more_loop (iterations : nat) : St world () :=
  match iterations with
  | O => mret ()
  | Datatypes.S iterations =>
      r ← try_anext;
      match r with
      | Raise e =>
          if caught e then set_iter_is_alive false else raise e
      | Return elem =>
          lines_append elem;;
          fetch_more_loop iterations
      end
  end.

(** [range(1, n)] has [n - 1] elements, none when [n <= 1].  The lock
    is free whenever a call starts in a sequential run and is released
    on every way out, so it is left out of the state. *)
Definition fetch_more : St world () :=
  f ← gets fetcher;
  if negb (_iter_is_alive f) then mret ()
  else fetch_more_loop (Z.to_nat (incremental_fetching_step f - 1)).

(** [while self._iter_is_alive: await self.fetch_more()].  [None] when
    the loop is still running after [fuel] turns. *)
Fixpoint fetch_all (fuel : nat) (w : world) : option (world * outcome ()) :=
  if negb (_iter_is_alive (fetcher w)) then Some (w, Return ())
  else
    match fuel with
    | O => None
    | Datatypes.S fuel =>
        match fetch_more w with
        | (w', Return _) => fetch_all fuel w'
        | (w', Raise e) => Some (w', Raise e)
        end
    end.

(** The [fetched_pages] property; [//] and [%] round towards minus
    infinity, as [Z.div] and [Z.modulo] do. *)
Definition fetched_pages (w : world) : option Z :=
  let f := fetcher w in
  let len := Z.of_nat (length (heap w !!! lines f)) in
  if _average_page_size f =? 0 then None
  else Some (len / _average_page_size f
             + (if negb (len mod _average_page_size f =? 0) then 1 else 0)).

Definition all_fetched (w : world) : bool :=
  negb (_iter_is_alive (fetcher w)).
End Fetcher.

(** *** filter_lines_by_quality *)

(** The [for] loop of the [else] branch; [continue] on [ValueError]. *)
Fixpoint filter_loop (quality_t : FLAG_T) (lines : list Line)
    (asked_quality : quality_arg) (result : list Line) : list Line :=
  match lines with
  | [] => result
  | line :: rest =>
      match quality_t (quality line) with
      | None => filter_loop quality_t rest asked_quality result
      | Some quality_of_line =>
          match call_flag quality_t asked_quality with
          | None => filter_loop quality_t rest asked_quality result
          | Some asked =>
              if flag_contains quality_of_line asked
              then filter_loop quality_t rest (FlagArg asked) (result ++ [line])
              else filter_loop quality_t rest (FlagArg asked) result
          end
      end
  end.

Section Sentinels.
(** The sentinel of flag.py is a parameter of the model. *)
Variable ANY_QUALITY : Z.

(** Passing through returns the list that was passed in, not a copy. *)
Definition filter_lines_by_quality (lines : loc) (asked_quality : Z)
    (quality_t : option FLAG_T) : St (gmap loc (list Line)) loc :=
  match asked_quality =? ANY_QUALITY, quality_t with
  | false, Some quality_t =>
      contents ← read_list lines;
      alloc_list (filter_loop quality_t contents (IntArg asked_quality) [])
  | _, _ => mret lines
  end.
End Sentinels.

(** *** Page builders *)

(** [build_page] and [order_by] are handed a list object and may do to
    the store whatever a method can do to the lists it reaches;
    [empty_page] is handed nothing and is taken by what it returns. *)
Record ABCPageBuilder : Type := {
  build_page : loc → St (gmap loc (list Line)) (option Page);
  empty_page : outcome Page;
  order_by : loc → Z → St (gmap loc (list Line)) order_result
}.

(** The [order_by] of the base class. *)
Definition ABCPageBuilder_order_by (lines : loc) (asked_ordering : Z) :
    St (gmap loc (list Line)) order_result :=
  mret NotImplemented.

Definition newline : string := String "010"%char EmptyString.

Definition NaivePageBuilder (base_text : string) : ABCPageBuilder := {|
  empty_page := Return {| page_text := base_text |};
  build_page lines :=
    contents ← read_list lines;
    match contents with
    | [] => mret None
    | _ =>
        let text0 := base_text +:+ newline in
        mret (Some {| page_text := text0 +:+ String.concat newline (text <$> contents) |})
    end;
  order_by := ABCPageBuilder_order_by
|}.

(** *** RecordManager *)

(** Modelled from the spec: settings.py is not among the sources at hand.
    Of the settings the manager uses the page-sizing strategy only, a
    function from a record list to an ordered sequence of chunks;
    [page_sizer_factory] stands for [page_sizer_factory()], the sizer the
    factory returns.  The sizer is handed the list object itself and
    hands back list objects, new lists or the one it was handed; the
    sequence is taken to be complete when the sizer returns, as a list
    of chunks is. *)
Record PaginatorSettings : Type := {
  page_sizer_factory : loc → St (gmap loc (list Line)) (list loc)
}.

Section RecordManager.
Context {S : Type}.
(** The sentinels of flag.py are parameters of the model. *)
Variables ANY_QUALITY ANY_ORDERING : Z.
(** [self.settings]; [self.fetcher] is the fetcher of the world. *)
Variable settings : PaginatorSettings.

Definition get_empty_page (builder : ABCPageBuilder) : St (@world S) Page :=
  lift_outcome (empty_page builder).

(** The sizer is handed the list that [filtered_lines] is bound to,
    the buffer of the fetcher itself when the filter passed through and
    [order_by] returned no other list, and [build_page] is handed the
    chunks of the sizer, one after the other.  [if page] keeps every
    [Page] and drops [None]; [len(filtered_lines)] is taken after the
    pages were built. *)
Definition build_page_book (asked_quality asked_ordering : Z)
    (builder : ABCPageBuilder) (quality_t : option FLAG_T) : St (@world S) PageBook :=
  f ← gets fetcher;
  filtered_lines ←
    lift_heap (filter_lines_by_quality ANY_QUALITY (lines f) asked_quality quality_t);
  filtered_lines ←
    (if negb (asked_ordering =? ANY_ORDERING) then
       ordered_lines ← lift_heap (order_by builder filtered_lines asked_ordering);
       match ordered_lines with
       | NotImplemented => mret filtered_lines
       | Lines ordered_lines => mret ordered_lines
       end
     else mret filtered_lines);
  chunks ← lift_heap (page_sizer_factory settings filtered_lines);
  page_book ←
    mapM (fun selected_lines => lift_heap (build_page builder selected_lines)) chunks;
  let page_book := omap id page_book in
  (if negb (length page_book =? 0)%nat then
     contents ← lift_heap (read_list filtered_lines);
     set_average_page_size (Z.of_nat (length contents) / Z.of_nat (length page_book))
   else mret ());;
  mret page_book.
End RecordManager.
End Model.
Arguments Line T : clear implicits.
Arguments Fetcher S : clear implicits.
Arguments world T S : clear implicits.
Arguments ABCPageBuilder T : clear implicits.
Arguments PaginatorSettings T : clear implicits.

(** ** The flag types and the builder of examples/filtered.py *)

(** The validating constructor of an [IntFlag] with [boundary=STRICT]
    whose members cover the bits of [flag_mask]: an integer out of range
    or with a bit no member has is refused; a negative integer in range
    stands for the member with the complementary bits. *)
Definition strict_flag (flag_mask : Z) : FLAG_T := fun value =>
  let all_bits := 2 ^ (Z.log2 flag_mask + 1) - 1 in
  if negb ((Z.lnot all_bits <=? value) && (value <=? all_bits))
     || negb (Z.land value (Z.lxor all_bits flag_mask) =? 0)
  then None
  else Some (if value <? 0 then all_bits + 1 + value else value).

Module Filters.
Definition EVEN : Z := 2.
Definition UNEVEN : Z := 4.
Definition new : FLAG_T := strict_flag (Z.lor EVEN UNEVEN).
End Filters.

Module Sorting.
Definition FROM_HIGHEST : Z := 2.
Definition FROM_LOWEST : Z := 4.
End Sorting.

(** [list.sort(key=...)] is stable; with [reverse=True] it is stable for
    the reversed order.  [le k1 k2] tells that key [k1] may stay in front
    of key [k2]. *)
Fixpoint insert_by_key {A} (le : Z → Z → bool) (key : A → Z) (x : A) (l : list A) : list A :=
  match l with
  | [] => [x]
  | y :: l' => if le (key x) (key y) then x :: l else y :: insert_by_key le key x l'
  end.

Definition sort_by_key {A} (le : Z → Z → bool) (key : A → Z) (l : list A) : list A :=
  foldr (insert_by_key le key) [] l.

(** [SortingPageBuilder(NaivePageBuilder[MetaT])]: [order_by] sorts a copy. *)
Definition SortingPageBuilder (base_text : string) : ABCPageBuilder Z := {|
  build_page := build_page (NaivePageBuilder (T:=Z) base_text);
  empty_page := empty_page (NaivePageBuilder (T:=Z) base_text);
  order_by lines asked_ordering :=
    contents ← read_list lines;
    ordered_lines ← alloc_list contents;
    (if asked_ordering =? Sorting.FROM_HIGHEST then
       write_list ordered_lines (sort_by_key Z.geb meta contents)
     else if asked_ordering =? Sorting.FROM_LOWEST then
       write_list ordered_lines (sort_by_key Z.leb meta contents)
     else mret ());;
    mret (Lines ordered_lines)
|}.

(** A builder whose [order_by] sorts the list it is handed and returns it:
    [lines.sort(key=lambda i: i.meta, reverse=True); return lines]. *)
Definition InPlaceSortingPageBuilder (base_text : string) : ABCPageBuilder Z := {|
  build_page := build_page (NaivePageBuilder (T:=Z) base_text);
  empty_page := empty_page (NaivePageBuilder (T:=Z) base_text);
  order_by lines asked_ordering :=
    contents ← read_list lines;
    write_list lines (sort_by_key Z.geb meta contents);;
    mret (Lines lines)
|}.

(** A builder whose [order_by] keeps the first record only:
    [del lines[1:]; return lines]. *)
Definition TopPageBuilder (base_text : string) : ABCPageBuilder Z := {|
  build_page := build_page (NaivePageBuilder (T:=Z) base_text);
  empty_page := empty_page (NaivePageBuilder (T:=Z) base_text);
  order_by lines asked_ordering :=
    contents ← read_list lines;
    write_list lines (take 1 contents);;
    mret (Lines lines)
|}.

(** A source that plays a script: it yields or raises what the script
    says, and is exhausted when the script is. *)
Definition scripted_anext {T} (s : list (outcome (Line T))) :
    list (outcome (Line T)) * outcome (Line T) :=
  match s with
  | [] => ([], Raise StopAsyncIteration)
  | r :: s' => (s', r)
  end.

(** [filtering_fetcher] of examples/filtered.py: a record for each [i] of
    [range(1, 10000)], even ones with quality [EVEN], odd ones with
    [UNEVEN]; then the generator is finished.  The state is the next [i],
    1 at first. *)
Definition filtering_fetcher (i : Z) : Z * outcome (Line Z) :=
  if i <? 10000 then
    let qual := if i mod 2 =? 0 then Filters.EVEN else Filters.UNEVEN in
    (i + 1, Return {| text := pretty i; quality := qual; meta := i |})
  else (i, Raise StopAsyncIteration).

(** A page sizer: chunks of [size] records ([size] at least 1), each a
    new list, as slicing makes them. *)
Fixpoint chunks_of {A} (fuel size : nat) (l : list A) : list (list A) :=
  match fuel, l with
  | O, _ | _, [] => []
  | Datatypes.S fuel, _ => take size l :: chunks_of fuel size (drop size l)
  end.

Definition chunked_settings {T} (size : nat) : PaginatorSettings T :=
  {| page_sizer_factory lines :=
       contents ← read_list lines;
       mapM alloc_list (chunks_of (length contents) size contents) |}.

(** A page sizer that makes one page of everything and copies nothing:
    [lambda lines: [lines]]. *)
Definition whole_settings {T} : PaginatorSettings T :=
  {| page_sizer_factory lines := mret [lines] |}.

(** A builder whose [build_page] uses up the list it is handed:
    [page = super().build_page(lines); lines.clear(); return page]. *)
Definition ConsumingPageBuilder (base_text : string) : ABCPageBuilder Z := {|
  build_page lines :=
    page ← build_page (NaivePageBuilder (T:=Z) base_text) lines;
    write_list lines [];;
    mret page;
  empty_page := empty_page (NaivePageBuilder (T:=Z) base_text);
  order_by := ABCPageBuilder_order_by
|}.

Definition mkLine (t : string) (q m : Z) : Line Z :=
  {| text := t; quality := q; meta := m |}.

(** ** A session to run the model on *)

Module Example.
(** Modelled from the spec: flag.py is not among the sources at hand.
    The spec reserves the values below the first flag bit, 2, for the
    two sentinels; the runs below take 1 for both.  No theorem depends
    on the choice: they hold for all values of the two sentinels. *)
Definition ANY_QUALITY : Z := 1.
Definition ANY_ORDERING : Z := 1.

(** Pages of two records. *)
Definition settings : PaginatorSettings Z := chunked_settings 2.

(** A fetcher on [filtering_fetcher] in an empty store. *)
Definition started (incremental_fetching_step : Z) : world Z Z :=
  Fetcher_init incremental_fetching_step 1 ∅.

(** The same after one [fetch_more] with a bound of 4: records 1, 2, 3. *)
Definition fetched : world Z Z := (fetch_more filtering_fetcher (started 4)).1.

(** A source that yields one record and then fails with a runtime error
    that has nothing to do with reentrancy. *)
Definition connection_lost : exn := RuntimeError "connection lost".
Definition flaky_source : list (outcome (Line Z)) :=
  [Return (mkLine "1" Filters.UNEVEN 1); Raise connection_lost;
   Return (mkLine "2" Filters.EVEN 2)].

(** A source that yields one record and then fails with an exception of
    another class. *)
Definition broken_source : list (outcome (Line Z)) :=
  [Return (mkLine "1" Filters.UNEVEN 1); Raise (OtherException "OSError");
   Return (mkLine "2" Filters.EVEN 2)].

Definition flaky : world Z (list (outcome (Line Z))) :=
  Fetcher_init 100 flaky_source ∅.
Definition broken : world Z (list (outcome (Line Z))) :=
  Fetcher_init 100 broken_source ∅.

(** A source of five records. *)
Definition short_source : list (outcome (Line Z)) :=
  (fun i => Return (mkLine (pretty i) (if i mod 2 =? 0 then 2 else 4) i))
    <$> [1; 2; 3; 4; 5].
Definition short : world Z (list (outcome (Line Z))) :=
  Fetcher_init 3 short_source ∅.
End Example.

(** ** Vocabulary of the statements *)

(** "The asked value is bitwise contained in the quality": every bit of
    the first is a bit of the second. *)
Definition bitwise_contained (asked quality_of_line : Z) : Prop :=
  ∀ i, 0 ≤ i → Z.testbit asked i = true → Z.testbit quality_of_line i = true.

(** The filter as the specification words it: both constructions succeed
    and the asked value is contained in the quality of the record. *)
Definition qualifies {T} (quality_t : FLAG_T) (asked_quality : Z) (line : Line T) : Prop :=
  ∃ asked quality_of_line,
    quality_t asked_quality = Some asked
    ∧ quality_t (quality line) = Some quality_of_line
    ∧ bitwise_contained asked quality_of_line.

Definition qualifiesb {T} (quality_t : FLAG_T) (asked_quality : Z) (line : Line T) : bool :=
  match quality_t asked_quality, quality_t (quality line) with
  | Some asked, Some quality_of_line => flag_contains quality_of_line asked
  | _, _ => false
  end.

(** The name [asked_quality] holds the integer of the call until the
    first successful construction, and the member built from it after. *)
Definition tracks (quality_t : FLAG_T) (asked_quality : Z) (v : quality_arg) : Prop :=
  v = IntArg asked_quality
  ∨ ∃ asked, v = FlagArg asked ∧ quality_t asked_quality = Some asked.

Section FetcherVocabulary.
Context {T S : Type} (anext : S → S * outcome (Line T)).

(** The records the fetcher holds. *)
Definition buffer (w : world T S) : list (Line T) :=
  heap w !!! lines (fetcher w).

(** The store after the records [xs] were appended, one by one, to the
    list at [l]. *)
Definition appended (l : loc) (xs : list (Line T))
    (h : gmap loc (list (Line T))) : gmap loc (list (Line T)) :=
  foldl (fun h x => <[l := h !!! l ++ [x]]> h) h xs.

(** The source on its own: pulled at most [n] times from state [s], it
    yields these records, is left in this state, and raised this
    exception if a pull raised (which ends the pulling). *)
Fixpoint pull (n : nat) (s : S) : list (Line T) * S * option exn :=
  match n with
  | O => ([], s, None)
  | Datatypes.S n =>
      match anext s with
      | (s', Return x) => let '(xs, s'', e) := pull n s' in (x :: xs, s'', e)
      | (s', Raise e) => ([], s', Some e)
      end
  end.

(** The source still has at least [n] records to give. *)
Definition has_remaining (n : nat) (s : S) : Prop :=
  (pull n s).2 = None ∧ length (pull n s).1.1 = n.

(** The world a run of the fetch loop leaves, given what the source did
    during it. *)
Definition after_pull (w : world T S) (xs : list (Line T)) (s : S)
    (e : option exn) : world T S * outcome () :=
  let f := fetcher w in
  ({| heap := appended (lines f) xs (heap w);
      fetcher := {| lines := lines f;
                    incremental_fetching_step := incremental_fetching_step f;
                    _average_page_size := _average_page_size f;
                    _iter := s;
                    _iter_is_alive :=
                      match e with
                      | Some e => if caught e then false else _iter_is_alive f
                      | None => _iter_is_alive f
                      end |} |},
   match e with
   | Some e => if caught e then Return () else Raise e
   | None => Return ()
   end).
End FetcherVocabulary.

Section ManagerVocabulary.
Context {T S : Type}.

(** The world with its store replaced. *)
Definition with_heap (w : world T S) (h : gmap loc (list (Line T))) : world T S :=
  {| heap := h; fetcher := fetcher w |}.

(** What the builder and the page sizer may do to the list [b] of the
    store.  The method reaches [b] only by being handed it: handed
    another list, it leaves [b] as it is and does not hand it back. *)
Definition order_by_local (b : loc) (builder : ABCPageBuilder T) : Prop :=
  ∀ l o (h : gmap loc (list (Line T))),
    l ≠ b → b ∈ dom h →
    (order_by builder l o h).1 !! b = h !! b
    ∧ (order_by builder l o h).2 ≠ Return (Lines b).

Definition page_sizer_local (b : loc) (settings : PaginatorSettings T) : Prop :=
  ∀ l (h : gmap loc (list (Line T))),
    l ≠ b → b ∈ dom h →
    (page_sizer_factory settings l h).1 !! b = h !! b
    ∧ ∀ chunks, (page_sizer_factory settings l h).2 = Return chunks → b ∉ chunks.

Definition build_page_local (b : loc) (builder : ABCPageBuilder T) : Prop :=
  ∀ l (h : gmap loc (list (Line T))),
    l ≠ b → b ∈ dom h → (build_page builder l h).1 !! b = h !! b.

(** The method leaves the list [b] as it is when [b] is what it is
    handed. *)
Definition order_by_keeps (b : loc) (builder : ABCPageBuilder T) : Prop :=
  ∀ o (h : gmap loc (list (Line T))),
    b ∈ dom h → (order_by builder b o h).1 !! b = h !! b.

Definition page_sizer_keeps (b : loc) (settings : PaginatorSettings T) : Prop :=
  ∀ h : gmap loc (list (Line T)),
    b ∈ dom h → (page_sizer_factory settings b h).1 !! b = h !! b.

Definition build_page_keeps (b : loc) (builder : ABCPageBuilder T) : Prop :=
  ∀ h : gmap loc (list (Line T)),
    b ∈ dom h → (build_page builder b h).1 !! b = h !! b.

(** The method leaves every list that exists as it is (it may make new
    ones). *)
Definition order_by_preserves (builder : ABCPageBuilder T) : Prop :=
  ∀ l o (h : gmap loc (list (Line T))), h ⊆ (order_by builder l o h).1.

Definition page_sizer_preserves (settings : PaginatorSettings T) : Prop :=
  ∀ l (h : gmap loc (list (Line T))), h ⊆ (page_sizer_factory settings l h).1.

Definition build_page_preserves (builder : ABCPageBuilder T) : Prop :=
  ∀ l (h : gmap loc (list (Line T))), h ⊆ (build_page builder l h).1.

(** The first half of [build_page_book], up to the page sizer: the store
    it leaves and the list that is bound to [filtered_lines] when the
    pages are built. *)
Definition select_lines (ANY_QUALITY ANY_ORDERING asked_quality asked_ordering : Z)
    (builder : ABCPageBuilder T) (quality_t : option FLAG_T) : St (world T S) loc :=
  f ← gets fetcher;
  filtered_lines ←
    lift_heap (filter_lines_by_quality ANY_QUALITY (lines f) asked_quality quality_t);
  if negb (asked_ordering =? ANY_ORDERING) then
    ordered_lines ← lift_heap (order_by builder filtered_lines asked_ordering);
    match ordered_lines with
    | NotImplemented => mret filtered_lines
    | Lines ordered_lines => mret ordered_lines
    end
  else mret filtered_lines.

(** The second half of [build_page_book], from the page sizer on, for
    the list that is bound to [filtered_lines]. *)
Definition build_pages (settings : PaginatorSettings T) (builder : ABCPageBuilder T)
    (filtered_lines : loc) : St (world T S) PageBook :=
  chunks ← lift_heap (page_sizer_factory settings filtered_lines);
  page_book ←
    mapM (fun selected_lines => lift_heap (build_page builder selected_lines)) chunks;
  let page_book := omap id page_book in
  (if negb (length page_book =? 0)%nat then
     contents ← lift_heap (read_list filtered_lines);
     set_average_page_size (Z.of_nat (length contents) / Z.of_nat (length page_book))
   else mret ());;
  mret page_book.

(** When a call of [build_page_book] in the world [w] can be trusted
    with the buffer.  The methods it calls reach the buffer only by
    being handed it ([order_by] is called only when an ordering is
    asked).  And either the filter does not pass through, so that what
    they are handed is a new list; or whichever of [order_by], the page
    sizer and [build_page] is handed the buffer itself in this call
    leaves it as it is. *)
Definition spares_buffer (ANY_QUALITY ANY_ORDERING : Z) (settings : PaginatorSettings T)
    (asked_quality asked_ordering : Z) (builder : ABCPageBuilder T)
    (quality_t : option FLAG_T) (w : world T S) : Prop :=
  let b := lines (fetcher w) in
  let selected := select_lines ANY_QUALITY ANY_ORDERING asked_quality asked_ordering
                    builder quality_t w in
  (asked_ordering ≠ ANY_ORDERING → order_by_local b builder)
  ∧ page_sizer_local b settings
  ∧ build_page_local b builder
  ∧ ((asked_quality ≠ ANY_QUALITY ∧ quality_t ≠ None)
     ∨ ((asked_ordering ≠ ANY_ORDERING → order_by_keeps b builder)
        ∧ (selected.2 = Return b → page_sizer_keeps b settings)
        ∧ (∀ chunks,
             selected.2 = Return b →
             (page_sizer_factory settings b (heap selected.1)).2 = Return chunks →
             b ∈ chunks → build_page_keeps b builder))).

(** From [w] to [w'] the fetcher kept its list object, the object is
    still in the store, and it holds the records of before, in place,
    followed by what was appended. *)
Definition grows (w w' : world T S) : Prop :=
  lines (fetcher w') = lines (fetcher w)
  ∧ lines (fetcher w') ∈ dom (heap w')
  ∧ buffer w `prefix_of` buffer w'.

(** The calls a consumer can make on a fetcher and its manager.  A call
    that raises hands the exception to the consumer, who may go on. *)
Inductive call : Type :=
| FetchMore
| FetchAll (fuel : nat)
| BuildPageBook (asked_quality asked_ordering : Z)
    (builder : ABCPageBuilder T) (quality_t : option FLAG_T).

(** The call, made in the world [w], can be trusted with the buffer. *)
Definition call_spares_buffer (ANY_QUALITY ANY_ORDERING : Z)
    (settings : PaginatorSettings T) (c : call) (w : world T S) : Prop :=
  match c with
  | BuildPageBook asked_quality asked_ordering builder quality_t =>
      spares_buffer ANY_QUALITY ANY_ORDERING settings
        asked_quality asked_ordering builder quality_t w
  | _ => True
  end.

Section Run.
Variable anext : S → S * outcome (Line T).
Variables ANY_QUALITY ANY_ORDERING : Z.
Variable settings : PaginatorSettings T.

(** The world after a call; [None] when [fetch_all] has not returned
    within its fuel. *)
Definition run_call (c : call) (w : world T S) : option (world T S) :=
  match c with
  | FetchMore => Some (fetch_more anext w).1
  | FetchAll fuel => fst <$> fetch_all anext fuel w
  | BuildPageBook asked_quality asked_ordering builder quality_t =>
      Some (build_page_book ANY_QUALITY ANY_ORDERING settings
              asked_quality asked_ordering builder quality_t w).1
  end.

Fixpoint run_calls (cs : list call) (w : world T S) : option (world T S) :=
  match cs with
  | [] => Some w
  | c :: cs =>
      match run_call c w with
      | Some w' => run_calls cs w'
      | None => None
      end
  end.

(** Every call of the sequence can be trusted with the buffer in the
    world it is made in. *)
Fixpoint calls_spare_buffer (cs : list call) (w : world T S) : Prop :=
  match cs with
  | [] => True
  | c :: cs =>
      call_spares_buffer ANY_QUALITY ANY_ORDERING settings c w
      ∧ match run_call c w with
        | Some w' => calls_spare_buffer cs w'
        | None => True
        end
  end.
End Run.
End ManagerVocabulary.
Arguments call T : clear implicits.

(** ** Vocabulary of the further statements *)

From Stdlib Require Import Sorted.

Section FurtherFetcherVocabulary.
Context {T S : Type} (anext : S → S * outcome (Line T)).

(** Pulled from state [s], the source yields the records [xs] and then
    raises an exception that [fetch_more] catches: it is a finite source
    with exactly [xs] left. *)
Definition drains (s : S) (xs : list (Line T)) : Prop :=
  ∃ s' e, pull anext (Datatypes.S (length xs)) s = (xs, s', Some e) ∧ caught e = true.

(** A call that fetches. *)
Definition is_fetch (c : call T) : Prop :=
  match c with
  | FetchMore | FetchAll _ => True
  | BuildPageBook _ _ _ _ => False
  end.
End FurtherFetcherVocabulary.

(** The record [filtering_fetcher] yields for [i]. *)
Definition filtering_record (i : Z) : Line Z :=
  {| text := pretty i;
     quality := if i mod 2 =? 0 then Filters.EVEN else Filters.UNEVEN;
     meta := i |}.

Section FurtherManagerVocabulary.
Context {T : Type}.

(** The records in the list [filter_lines_by_quality] returns. *)
Definition filter_result (ANY_QUALITY : Z) (h : gmap loc (list (Line T))) (lines : loc)
    (asked_quality : Z) (quality_t : option FLAG_T) : list (Line T) :=
  match filter_lines_by_quality ANY_QUALITY lines asked_quality quality_t h with
  | (h', Return result) => h' !!! result
  | (_, Raise _) => []
  end.

(** What the filter lets through of a list of records: all of them with
    the sentinel or without a flag type, else those that qualify. *)
Definition filter_view (ANY_QUALITY asked_quality : Z) (quality_t : option FLAG_T)
    (records : list (Line T)) : list (Line T) :=
  match asked_quality =? ANY_QUALITY, quality_t with
  | false, Some quality_t => List.filter (qualifiesb quality_t asked_quality) records
  | _, _ => records
  end.

(** The page sizer only reads.  It leaves the lists that exist as they
    are, and what it does with a list depends on the records of that
    list only: it raises what [sizer] raises on them, or hands back
    lists that hold the chunks [sizer] makes of them. *)
Definition page_sizer_reads (settings : PaginatorSettings T)
    (sizer : list (Line T) → outcome (list (list (Line T)))) : Prop :=
  ∀ l (h : gmap loc (list (Line T))),
    h ⊆ (page_sizer_factory settings l h).1
    ∧ (l ∈ dom h →
       match (page_sizer_factory settings l h).2, sizer (h !!! l) with
       | Return chunks, Return records =>
           Forall (fun selected_lines =>
                     selected_lines ∈ dom (page_sizer_factory settings l h).1) chunks
           ∧ (fun selected_lines => (page_sizer_factory settings l h).1 !!! selected_lines)
               <$> chunks = records
       | Raise e, Raise e' => e = e'
       | _, _ => False
       end).

(** [build_page] only reads.  It leaves the lists that exist as they
    are, and returns or raises what [render] does on the records of the
    list it is handed. *)
Definition build_page_reads (builder : ABCPageBuilder T)
    (render : list (Line T) → outcome (option Page)) : Prop :=
  ∀ l (h : gmap loc (list (Line T))),
    h ⊆ (build_page builder l h).1 ∧ (build_page builder l h).2 = render (h !!! l).

(** The second half of [build_page_book] as a function of the records
    the pages are built from, for a sizer and a [build_page] that only
    read: chunk, build, drop the absent pages. *)
Definition pages_of (sizer : list (Line T) → outcome (list (list (Line T))))
    (render : list (Line T) → outcome (option Page))
    (records : list (Line T)) : outcome PageBook :=
  chunks ← sizer records;
  page_book ← mapM render chunks;
  mret (omap id page_book).

(** What the sizer of [chunked_settings] makes of a list of records. *)
Definition chunked (size : nat) (records : list (Line T)) : outcome (list (list (Line T))) :=
  Return (chunks_of (length records) size records).

(** [bool(chunk)] *)
Definition nonempty (chunk : list (Line T)) : bool :=
  match chunk with
  | [] => false
  | _ => true
  end.

(** The page [NaivePageBuilder] renders for a chunk that is not empty. *)
Definition naive_page (base_text : string) (chunk : list (Line T)) : Page :=
  {| page_text := base_text +:+ newline +:+ String.concat newline (text <$> chunk) |}.

(** What the [build_page] of [NaivePageBuilder] makes of a list of
    records. *)
Definition naive_render (base_text : string) (records : list (Line T)) :
    outcome (option Page) :=
  Return (if nonempty records then Some (naive_page base_text records) else None).

(** [FormattingPageBuilder].  [str.format] with one keyword argument is
    Python's own: [format template name value] stands for formatting
    [template] with [value] under the keyword [name], and raises what
    that raises. *)
Definition FormattingPageBuilder (format : string → string → string → outcome string)
    (base_text formatting_template_name : string)
    (empty_page_format_text : option string) : ABCPageBuilder T := {|
  empty_page :=
    text ← match empty_page_format_text with
           | None => format base_text formatting_template_name ""
           | Some empty_page_format_text =>
               format base_text formatting_template_name empty_page_format_text
           end;
    mret {| page_text := text |};
  build_page lines :=
    contents ← read_list lines;
    match contents with
    | [] => mret None
    | _ =>
        let text0 := String.concat newline (text <$> contents) in
        page_text ← lift_outcome (format base_text formatting_template_name text0);
        mret (Some {| page_text := page_text |})
    end;
  order_by := ABCPageBuilder_order_by
|}.

(** What the [build_page] of [FormattingPageBuilder] makes of a list of
    records. *)
Definition formatting_render (format : string → string → string → outcome string)
    (base_text formatting_template_name : string) (records : list (Line T)) :
    outcome (option Page) :=
  match records with
  | [] => Return None
  | _ =>
      page_text ← format base_text formatting_template_name
                    (String.concat newline (text <$> records));
      mret (Some {| page_text := page_text |})
  end.
End FurtherManagerVocabulary.

(** The records of the list the [order_by] of [SortingPageBuilder]
    returns, given those of the list it is handed. *)
Definition ordered_by (asked_ordering : Z) (records : list (Line Z)) : list (Line Z) :=
  if asked_ordering =? Sorting.FROM_HIGHEST then sort_by_key Z.geb meta records
  else if asked_ordering =? Sorting.FROM_LOWEST then sort_by_key Z.leb meta records
  else records.

(** The three fetched records of the example session after a page book
    of two pages was built from all of them: the stored average is 1. *)
Definition paged : world Z Z :=
  (build_page_book Example.ANY_QUALITY Example.ANY_ORDERING Example.settings
     Example.ANY_QUALITY Example.ANY_ORDERING (NaivePageBuilder "Result is: ") None
     Example.fetched).1.

(** ** The quality filter *)

Section FilterFacts.
Context {T : Type}.
Implicit Types (line : Line T) (h : gmap loc (list (Line T))).

Lemma flag_contains_spec q a : flag_contains q a = true ↔ bitwise_contained a q.
Proof.
  unfold flag_contains, bitwise_contained. rewrite Z.eqb_eq. split.
  - intros Hland i _ Hi. rewrite <- Hland, Z.land_spec in Hi.
    by apply andb_true_iff in Hi as [_ ?].
  - intros Hsub. apply Z.bits_inj'. intros i Hi.
    rewrite Z.land_spec. specialize (Hsub i Hi).
    destruct (Z.testbit a i); [by rewrite Hsub | done].
Qed.

Lemma qualifiesb_spec quality_t asked_quality line :
  qualifiesb quality_t asked_quality line = true ↔ qualifies quality_t asked_quality line.
Proof.
  unfold qualifiesb, qualifies. split.
  - destruct (quality_t asked_quality) as [a|]; [|done].
    destruct (quality_t (quality line)) as [q|]; [|done].
    intros H%flag_contains_spec. by exists a, q.
  - intros (a & q & -> & -> & H). by apply flag_contains_spec.
Qed.

Lemma call_flag_tracks quality_t asked_quality v :
  tracks quality_t asked_quality v →
  call_flag quality_t v = quality_t asked_quality.
Proof. by intros [-> | (a & -> & ->)]. Qed.

Lemma filter_loop_spec quality_t asked_quality (lines result : list (Line T)) v :
  tracks quality_t asked_quality v →
  filter_loop quality_t lines v result
  = result ++ List.filter (qualifiesb quality_t asked_quality) lines.
Proof.
  revert v result. induction lines as [|line rest IH]; intros v result Hv; simpl.
  - by rewrite app_nil_r.
  - unfold qualifiesb at 1. rewrite (call_flag_tracks _ _ _ Hv).
    destruct (quality_t (quality line)) as [q|] eqn:Hq.
    + destruct (quality_t asked_quality) as [a|] eqn:Ha.
      * assert (tracks quality_t asked_quality (FlagArg a)) as Hv'
          by (right; eauto).
        destruct (flag_contains q a); rewrite IH by done; [|done].
        by rewrite <- app_assoc.
      * by rewrite IH.
    + destruct (quality_t asked_quality); by rewrite IH.
Qed.

Lemma filter_lines_by_quality_any (ANY_QUALITY : Z) h (lines : loc) quality_t :
  filter_lines_by_quality ANY_QUALITY lines ANY_QUALITY quality_t h = (h, Return lines).
Proof. unfold filter_lines_by_quality. by rewrite Z.eqb_refl. Qed.

Lemma filter_lines_by_quality_no_type (ANY_QUALITY : Z) h (lines : loc) asked_quality :
  filter_lines_by_quality ANY_QUALITY lines asked_quality None h = (h, Return lines).
Proof. unfold filter_lines_by_quality. by destruct (asked_quality =? ANY_QUALITY). Qed.

Lemma filter_lines_by_quality_selects (ANY_QUALITY : Z) h (lines : loc)
    asked_quality (quality_t : FLAG_T) :
  asked_quality ≠ ANY_QUALITY →
  filter_lines_by_quality ANY_QUALITY lines asked_quality (Some quality_t) h
  = (<[fresh (dom h) := List.filter (qualifiesb quality_t asked_quality) (h !!! lines)]> h,
     Return (fresh (dom h))).
Proof.
  intros Hne%Z.eqb_neq. unfold filter_lines_by_quality. rewrite Hne.
  unfold mbind, St_bind, read_list, gets, alloc_list.
  rewrite (filter_loop_spec _ asked_quality) by (by left). done.
Qed.

(** C6.  Filtering with the "any quality" sentinel, or with no flag
    type, returns the list object it was given and leaves the store as
    it was: the same records in the same order, nothing added, removed
    or changed. *)
Theorem filter_pass_through (ANY_QUALITY : Z) h (lines : loc) (asked_quality : Z)
    (quality_t : option FLAG_T) :
  filter_lines_by_quality ANY_QUALITY lines ANY_QUALITY quality_t h = (h, Return lines)
  ∧ filter_lines_by_quality ANY_QUALITY lines asked_quality None h = (h, Return lines).
Proof.
  split; [apply filter_lines_by_quality_any | apply filter_lines_by_quality_no_type].
Qed.

(** C2.  With an asked quality other than the sentinel and a flag type
    supplied, the filter raises nothing and returns a new list that
    holds, in the order of the input, exactly the records for which
    the constructor of the flag type succeeds on the asked quality and
    on the quality of the record and the asked value is bitwise
    contained in the quality built for the record. *)
Theorem filter_lines_by_quality_correct (ANY_QUALITY : Z) h (lines : loc)
    (asked_quality : Z) (quality_t : FLAG_T) :
  asked_quality ≠ ANY_QUALITY →
  ∃ result : loc,
    let records := h !!! lines in
    let filtered := List.filter (qualifiesb quality_t asked_quality) records in
    filter_lines_by_quality ANY_QUALITY lines asked_quality (Some quality_t) h
    = (<[result := filtered]> h, Return result)
    ∧ (result ∉ dom h)
    ∧ (filtered `sublist_of` records)
    ∧ ∀ line, line ∈ filtered ↔ line ∈ records ∧ qualifies quality_t asked_quality line.
Proof.
  intros Hne. exists (fresh (dom h)). simpl.
  split; [|split; [|split]].
  - by apply filter_lines_by_quality_selects.
  - apply is_fresh.
  - induction (h !!! lines) as [|x l IH]; simpl; [done|].
    destruct (qualifiesb _ _ x); by constructor.
  - intros line. rewrite !list_elem_of_In, filter_In, qualifiesb_spec. done.
Qed.
End FilterFacts.

(** ** The fetcher *)

Section FetcherFacts.
Context {T S : Type} (anext : S → S * outcome (Line T)).
Implicit Types (w : world T S) (h : gmap loc (list (Line T))) (xs : list (Line T)).

Lemma appended_lookup_total l xs h : appended l xs h !!! l = h !!! l ++ xs.
Proof.
  revert h. induction xs as [|x xs IH]; intros h; simpl.
  - by rewrite app_nil_r.
  - rewrite IH, lookup_total_insert_eq. by rewrite <- app_assoc.
Qed.

Lemma appended_dom l xs h : l ∈ dom h → dom (appended l xs h) = dom h.
Proof.
  revert h. induction xs as [|x xs IH]; intros h Hl; simpl; [done|].
  assert (dom (<[l:=h !!! l ++ [x]]> h) = dom h) as Hdom.
  { rewrite dom_insert_L. apply subseteq_union_1_L. by apply singleton_subseteq_l. }
  rewrite IH; [done|]. by rewrite Hdom.
Qed.

Lemma fetch_more_loop_spec n w :
  fetch_more_loop anext n w
  = let '(xs, s, e) := pull anext n (_iter (fetcher w)) in after_pull w xs s e.
Proof.
  revert w. induction n as [|n IH]; intros [h f]; simpl.
  - by destruct f.
  - unfold mbind at 1, St_bind at 1. unfold try_anext at 1.
    unfold mbind, St_bind, gets. simpl.
    destruct (anext (_iter f)) as [s' [x|e]]; simpl.
    + rewrite IH. simpl. by destruct (pull anext n s') as [[xs s''] e].
    + unfold after_pull. simpl. by destruct (caught e).
Qed.
Lemma fetch_more_spec w :
  fetch_more anext w
  = if _iter_is_alive (fetcher w)
    then let '(xs, s, e) :=
           pull anext (Z.to_nat (incremental_fetching_step (fetcher w) - 1))
                (_iter (fetcher w)) in
         after_pull w xs s e
    else (w, Return ()).
Proof.
  unfold fetch_more, mbind, St_bind, gets.
  destruct (_iter_is_alive (fetcher w)); simpl; [|done].
  apply fetch_more_loop_spec.
Qed.

Lemma has_remaining_S n s :
  has_remaining anext (Datatypes.S n) s →
  ∃ s' x, anext s = (s', Return x) ∧ has_remaining anext n s'.
Proof.
  unfold has_remaining. simpl.
  destruct (anext s) as [s' [x|e]]; simpl; [|by intros [? ?]].
  destruct (pull anext n s') as [[xs s''] e] eqn:Hp. simpl.
  intros [-> Hlen]. exists s', x. rewrite Hp. simpl. split; [done|]. split; [done|lia].
Qed.

Lemma has_remaining_le n m s :
  (m ≤ n)%nat → has_remaining anext n s → has_remaining anext m s.
Proof.
  revert n s. induction m as [|m IH]; intros n s Hle Hn.
  - by split.
  - destruct n as [|n]; [lia|].
    apply has_remaining_S in Hn as (s' & x & Hs & Hn).
    apply (IH n s') in Hn as [He Hlen]; [|lia].
    unfold has_remaining. simpl. rewrite Hs.
    destruct (pull anext m s') as [[xs s''] e]. simpl in *. split; [done|lia].
Qed.

(** C3, as the code has it.  With the alive flag set and at least
    [incremental_fetching_step] records left in the source, one
    [fetch_more] returns normally, leaves the flag set and appends the
    next [max 0 (step - 1)] records of the source to the buffer: one
    fewer than the bound, and so not more than it, when the bound is
    at least 1; none when the bound is 0 or negative. *)
Theorem fetch_more_batch w :
  _iter_is_alive (fetcher w) = true →
  has_remaining anext (Z.to_nat (incremental_fetching_step (fetcher w))) (_iter (fetcher w)) →
  let step := incremental_fetching_step (fetcher w) in
  let w' := (fetch_more anext w).1 in
  let added := Z.of_nat (length (buffer w')) - Z.of_nat (length (buffer w)) in
  (fetch_more anext w).2 = Return ()
  ∧ _iter_is_alive (fetcher w') = true
  ∧ buffer w' = buffer w ++ (pull anext (Z.to_nat (step - 1)) (_iter (fetcher w))).1.1
  ∧ added = Z.max 0 (step - 1)
  ∧ (1 ≤ step → added = step - 1 ∧ added ≤ step)
  ∧ (step ≤ 0 → buffer w' = buffer w).
Proof.
  intros Halive Hrem. simpl.
  apply (has_remaining_le _ (Z.to_nat (incremental_fetching_step (fetcher w) - 1)))
    in Hrem as [He Hlen]; [|lia].
  rewrite fetch_more_spec, Halive.
  destruct (pull anext _ _) as [[xs s] e]. simpl in *. subst e.
  unfold buffer. simpl. rewrite appended_lookup_total, length_app, Hlen.
  repeat split; try done; try lia.
  intros Hle. replace (Z.to_nat _) with 0%nat in Hlen by lia.
  destruct xs; [|done]. by rewrite app_nil_r.
Qed.

(** C5, as the code has it.  When the source raises during a
    [fetch_more], the records appended before it stay in the buffer;
    if the exception is an instance of [StopAsyncIteration] or of
    [RuntimeError] (the end of the sequence, the reentrancy violation
    and any other runtime error alike) the alive flag is cleared and
    the call returns normally; any other exception reaches the caller
    and the flag stays as it was. *)
Theorem fetch_more_raise w xs s e :
  _iter_is_alive (fetcher w) = true →
  pull anext (Z.to_nat (incremental_fetching_step (fetcher w) - 1)) (_iter (fetcher w))
  = (xs, s, Some e) →
  let w' := (fetch_more anext w).1 in
  buffer w' = buffer w ++ xs
  ∧ match e with
    | StopAsyncIteration | RuntimeError _ =>
        (fetch_more anext w).2 = Return () ∧ _iter_is_alive (fetcher w') = false
    | OtherException _ =>
        (fetch_more anext w).2 = Raise e ∧ _iter_is_alive (fetcher w') = true
    end.
Proof.
  intros Halive Hpull. simpl. rewrite fetch_more_spec, Halive, Hpull.
  unfold buffer. simpl. rewrite appended_lookup_total.
  split; [done|]. by destruct e.
Qed.

Lemma ceiling_by_floor (a b : Z) :
  b ≠ 0 → a / b + (if negb (a mod b =? 0) then 1 else 0) = - ((- a) / b).
Proof.
  intros Hb. destruct (Z.eqb_spec (a mod b) 0) as [Hz|Hnz]; simpl.
  - rewrite Z.div_opp_l_z by done. lia.
  - rewrite Z.div_opp_l_nz by done. lia.
Qed.

(** C9.  [fetched_pages] is absent when no average is stored (the
    field holds 0) and otherwise the ceiling of the number of records
    divided by the stored average; it is computed as the floor
    quotient, plus one when the remainder is not zero. *)
Theorem fetched_pages_ceiling w :
  let len := Z.of_nat (length (buffer w)) in
  let average := _average_page_size (fetcher w) in
  fetched_pages w
  = if average =? 0 then None
    else Some (Qceiling (inject_Z len / inject_Z average)).
Proof.
  simpl. unfold fetched_pages, buffer.
  set (len := Z.of_nat _). set (average := _average_page_size _).
  destruct (Z.eqb_spec average 0) as [Hz|Hnz]; [done|].
  f_equal. rewrite ceiling_by_floor by done.
  unfold Qceiling, Qfloor, Qdiv, Qinv, Qmult, Qopp, inject_Z. simpl.
  destruct average as [|p|p]; [done| |]; simpl.
  - by rewrite Z.mul_1_r.
  - replace (- (len * -1)) with len by lia.
    change (Z.pos (1 * p)) with (Z.pos p). change (Z.neg p) with (- Z.pos p).
    by rewrite Z.div_opp_opp.
Qed.

Lemma fetch_more_small_step w :
  incremental_fetching_step (fetcher w) ≤ 1 →
  fetch_more anext w = (w, Return ()).
Proof.
  intros Hstep. rewrite fetch_more_spec.
  destruct (_iter_is_alive (fetcher w)); [|done].
  replace (Z.to_nat _) with 0%nat by lia. simpl.
  destruct w as [h f]. by destruct f.
Qed.

(** C10.  With a batch bound of 1 or less and the alive flag set,
    [fetch_more] changes nothing at all: no record is appended, the
    source is not advanced and the flag stays set, however often it is
    called; so [fetch_all] is still looping after any number of
    turns. *)
Theorem fetch_all_diverges w :
  incremental_fetching_step (fetcher w) ≤ 1 →
  _iter_is_alive (fetcher w) = true →
  fetch_more anext w = (w, Return ())
  ∧ (∀ n, Nat.iter n (fun w => (fetch_more anext w).1) w = w)
  ∧ ∀ fuel, fetch_all anext fuel w = None.
Proof.
  intros Hstep Halive. split; [|split].
  - by apply fetch_more_small_step.
  - induction n as [|n IH]; simpl; [done|].
    by rewrite IH, fetch_more_small_step.
  - induction fuel as [|fuel IH]; simpl; rewrite Halive; simpl; [done|].
    by rewrite fetch_more_small_step.
Qed.
End FetcherFacts.

(** ** The record manager *)

Section ManagerFacts.
Context {T S : Type}.
Variables ANY_QUALITY ANY_ORDERING : Z.
Variable settings : PaginatorSettings T.
Implicit Types (w : world T S) (h : gmap loc (list (Line T))).
Implicit Types (builder : ABCPageBuilder T) (quality_t : option FLAG_T).

Lemma filter_lines_by_quality_cases h (lines : loc) asked_quality quality_t :
  (filter_lines_by_quality ANY_QUALITY lines asked_quality quality_t h = (h, Return lines)
   ∧ (asked_quality = ANY_QUALITY ∨ quality_t = None))
  ∨ ∃ t (result : loc),
      quality_t = Some t ∧ asked_quality ≠ ANY_QUALITY ∧ (result ∉ dom h)
      ∧ filter_lines_by_quality ANY_QUALITY lines asked_quality quality_t h
        = (<[result := List.filter (qualifiesb t asked_quality) (h !!! lines)]> h,
           Return result).
Proof.
  destruct quality_t as [t|].
  - destruct (decide (asked_quality = ANY_QUALITY)) as [->|Hne].
    + left. split; [|by left]. apply filter_lines_by_quality_any.
    + right. exists t, (fresh (dom h)). split; [done|]. split; [done|].
      split; [apply is_fresh|]. by apply filter_lines_by_quality_selects.
  - left. split; [|by right]. apply filter_lines_by_quality_no_type.
Qed.

Lemma filter_lines_by_quality_store h (lines : loc) asked_quality quality_t :
  ∃ h1 (filtered_lines : loc),
    filter_lines_by_quality ANY_QUALITY lines asked_quality quality_t h
    = (h1, Return filtered_lines)
    ∧ h ⊆ h1.
Proof.
  destruct (filter_lines_by_quality_cases h lines asked_quality quality_t)
    as [[Heq _] | (t & result & _ & _ & Hfresh & Heq)]; rewrite Heq.
  - by exists h, lines.
  - eexists _, _. split; [done|]. apply insert_subseteq. by apply not_elem_of_dom.
Qed.

Lemma select_lines_spec asked_quality asked_ordering builder quality_t w :
  select_lines ANY_QUALITY ANY_ORDERING asked_quality asked_ordering builder quality_t w
  = match filter_lines_by_quality ANY_QUALITY (lines (fetcher w)) asked_quality
            quality_t (heap w) with
    | (h1, Return filtered_lines) =>
        if asked_ordering =? ANY_ORDERING
        then (with_heap w h1, Return filtered_lines)
        else
          match order_by builder filtered_lines asked_ordering h1 with
          | (h2, Return NotImplemented) => (with_heap w h2, Return filtered_lines)
          | (h2, Return (Lines ordered_lines)) => (with_heap w h2, Return ordered_lines)
          | (h2, Raise e) => (with_heap w h2, Raise e)
          end
    | (h1, Raise e) => (with_heap w h1, Raise e)
    end.
Proof.
  unfold select_lines. unfold mbind, St_bind, gets, lift_heap. simpl.
  destruct (filter_lines_by_quality _ _ _ _ _) as [h1 [fl|e]]; [|done].
  destruct (asked_ordering =? ANY_ORDERING); simpl; [done|].
  destruct (order_by builder fl asked_ordering h1) as [h2 [[|l]|e]]; done.
Qed.

Lemma select_lines_fetcher asked_quality asked_ordering builder quality_t w :
  fetcher (select_lines ANY_QUALITY ANY_ORDERING asked_quality asked_ordering
             builder quality_t w).1 = fetcher w.
Proof.
  rewrite select_lines_spec.
  destruct (filter_lines_by_quality _ _ _ _ _) as [h1 [fl|e]]; [|done].
  destruct (asked_ordering =? ANY_ORDERING); [done|].
  destruct (order_by builder fl asked_ordering h1) as [h2 [[|l]|e]]; done.
Qed.

(** The comprehension: one [build_page] after the other, each in the
    store the one before left; the first exception ends it. *)
Lemma mapM_St_cons {Σ A B} (f : A → St Σ B) (x : A) (xs : list A) (σ : Σ) :
  mapM f (x :: xs) σ
  = match f x σ with
    | (σ1, Return y) =>
        match mapM f xs σ1 with
        | (σ2, Return ys) => (σ2, Return (y :: ys))
        | (σ2, Raise e) => (σ2, Raise e)
        end
    | (σ1, Raise e) => (σ1, Raise e)
    end.
Proof.
  change (mapM f (x :: xs) σ) with
    (match f x σ with
     | (σ1, Return y) => (ys ← mapM f xs; mret (y :: ys)) σ1
     | (σ1, Raise e) => (σ1, Raise e)
     end).
  destruct (f x σ) as [σ1 [y|e]]; [|done].
  unfold mbind, St_bind. by destruct (mapM f xs σ1) as [σ2 [ys|e]].
Qed.

Lemma build_each_store builder (chunks : list loc) w :
  mapM (fun selected_lines => lift_heap (S:=S) (build_page builder selected_lines)) chunks w
  = lift_heap (mapM (build_page builder) chunks) w.
Proof.
  revert w. induction chunks as [|c chunks IH]; intros w; [by destruct w|].
  unfold lift_heap at 2. rewrite !mapM_St_cons. unfold lift_heap at 1.
  destruct (build_page builder c (heap w)) as [h1 [p|e]]; [|done].
  rewrite IH. unfold lift_heap. simpl.
  by destruct (mapM (build_page builder) chunks h1) as [h2 [ps|e]].
Qed.

Lemma build_pages_spec builder (filtered_lines : loc) w :
  build_pages settings builder filtered_lines w
  = match page_sizer_factory settings filtered_lines (heap w) with
    | (h2, Raise e) => (with_heap w h2, Raise e)
    | (h2, Return chunks) =>
        match mapM (build_page builder) chunks h2 with
        | (h3, Raise e) => (with_heap w h3, Raise e)
        | (h3, Return pages) =>
            let page_book := omap id pages in
            let average :=
              Z.of_nat (length (h3 !!! filtered_lines)) / Z.of_nat (length page_book) in
            (if (length page_book =? 0)%nat then with_heap w h3
             else (set_average_page_size average (with_heap w h3)).1,
             Return page_book)
        end
    end.
Proof.
  unfold build_pages. unfold mbind at 1, St_bind at 1. unfold lift_heap at 1.
  destruct (page_sizer_factory settings filtered_lines (heap w)) as [h2 [chunks|e]];
    [|done].
  unfold mbind at 1, St_bind at 1. rewrite build_each_store. unfold lift_heap at 1.
  simpl. destruct (mapM (build_page builder) chunks h2) as [h3 [pages|e]]; [|done].
  unfold mbind, St_bind, lift_heap, read_list, gets, with_heap. simpl.
  by destruct (length (omap id pages) =? 0)%nat.
Qed.

Lemma build_page_book_select asked_quality asked_ordering builder quality_t w :
  build_page_book ANY_QUALITY ANY_ORDERING settings asked_quality asked_ordering
    builder quality_t w
  = match select_lines ANY_QUALITY ANY_ORDERING asked_quality asked_ordering
            builder quality_t w with
    | (w1, Return filtered_lines) => build_pages settings builder filtered_lines w1
    | (w1, Raise e) => (w1, Raise e)
    end.
Proof.
  unfold build_page_book, select_lines, build_pages.
  cbv beta iota delta [mbind St_bind gets].
  destruct (lift_heap _ w) as [w0 [fl0|e]]; [|done].
  destruct (asked_ordering =? ANY_ORDERING); simpl; [done|].
  destruct (lift_heap (order_by builder fl0 asked_ordering) w0) as [w1 [[|l]|e]]; done.
Qed.

Lemma build_page_book_spec asked_quality asked_ordering builder quality_t w :
  build_page_book ANY_QUALITY ANY_ORDERING settings asked_quality asked_ordering
    builder quality_t w
  = match select_lines ANY_QUALITY ANY_ORDERING asked_quality asked_ordering
            builder quality_t w with
    | (w1, Raise e) => (w1, Raise e)
    | (w1, Return filtered_lines) =>
        match page_sizer_factory settings filtered_lines (heap w1) with
        | (h2, Raise e) => (with_heap w1 h2, Raise e)
        | (h2, Return chunks) =>
            match mapM (build_page builder) chunks h2 with
            | (h3, Raise e) => (with_heap w1 h3, Raise e)
            | (h3, Return pages) =>
                let page_book := omap id pages in
                let average :=
                  Z.of_nat (length (h3 !!! filtered_lines))
                  / Z.of_nat (length page_book) in
                (if (length page_book =? 0)%nat then with_heap w1 h3
                 else (set_average_page_size average (with_heap w1 h3)).1,
                 Return page_book)
            end
        end
    end.
Proof.
  rewrite build_page_book_select.
  destruct (select_lines _ _ _ _ _ _ _) as [w1 [fl|e]]; [|done].
  apply build_pages_spec.
Qed.

(** C1.  A call of [build_page_book] that returns a page book (the
    pages built, one after the other, from the chunks the page sizer
    made of the filtered, possibly reordered list, the absent ones
    dropped) leaves the stored average as it was when the book is
    empty, and otherwise sets it to [M // N] for the [M] records of that
    list and the [N] pages of the book; a call that raises leaves the
    stored average as it was. *)
Theorem build_page_book_average asked_quality asked_ordering builder quality_t w :
  let selected := select_lines ANY_QUALITY ANY_ORDERING asked_quality asked_ordering
                    builder quality_t w in
  let built := build_page_book ANY_QUALITY ANY_ORDERING settings asked_quality
                 asked_ordering builder quality_t w in
  match built.2 with
  | Raise _ => _average_page_size (fetcher built.1) = _average_page_size (fetcher w)
  | Return page_book =>
      ∃ (filtered_lines : loc) h2 chunks pages,
        selected.2 = Return filtered_lines
        ∧ page_sizer_factory settings filtered_lines (heap selected.1)
          = (h2, Return chunks)
        ∧ mapM (build_page builder) chunks h2 = (heap built.1, Return pages)
        ∧ page_book = omap id pages
        ∧ let M := Z.of_nat (length (heap built.1 !!! filtered_lines)) in
          let N := Z.of_nat (length page_book) in
          _average_page_size (fetcher built.1)
          = if N =? 0 then _average_page_size (fetcher w) else M / N
  end.
Proof.
  simpl. rewrite build_page_book_spec.
  pose proof (select_lines_fetcher asked_quality asked_ordering builder quality_t w) as Hf.
  destruct (select_lines _ _ _ _ _ _ _) as [w1 [fl|e]]; simpl in *; [|by rewrite Hf].
  destruct (page_sizer_factory settings fl (heap w1)) as [h2 [chunks|e]] eqn:Hsizer;
    simpl; [|by rewrite Hf].
  destruct (mapM (build_page builder) chunks h2) as [h3 [pages|e]] eqn:Hpages; simpl;
    [|by rewrite Hf].
  exists fl, h2, chunks, pages.
  destruct (length (omap id pages)) as [|n] eqn:Hlen; simpl.
  - by rewrite Hf.
  - by repeat split.
Qed.

(** C8.  The [order_by] of the base class returns the [NotImplemented]
    marker and touches nothing.  [build_page_book] takes the result of
    [order_by] for its list only when that result is not the marker:
    whatever the builder, it goes on from the page sizer with the list
    [order_by] returned, or with the list the filter returned when
    [order_by] returned the marker.  So with a builder that does not
    override [order_by], [build_page_book] makes its pages of the list
    the filter returned, in the store the filter left, whatever
    ordering is asked: it does what it does when no ordering is asked. *)
Theorem order_by_not_implemented asked_quality asked_ordering builder quality_t w :
  order_by builder = ABCPageBuilder_order_by →
  (∀ l o h, order_by builder l o h = (h, Return NotImplemented))
  ∧ (∀ builder' h1 h2 (filtered_lines : loc) r,
       filter_lines_by_quality ANY_QUALITY (lines (fetcher w)) asked_quality
         quality_t (heap w) = (h1, Return filtered_lines) →
       asked_ordering ≠ ANY_ORDERING →
       order_by builder' filtered_lines asked_ordering h1 = (h2, Return r) →
       build_page_book ANY_QUALITY ANY_ORDERING settings asked_quality asked_ordering
         builder' quality_t w
       = build_pages settings builder'
           match r with
           | NotImplemented => filtered_lines
           | Lines ordered_lines => ordered_lines
           end
           (with_heap w h2))
  ∧ (∀ h1 (filtered_lines : loc),
       filter_lines_by_quality ANY_QUALITY (lines (fetcher w)) asked_quality
         quality_t (heap w) = (h1, Return filtered_lines) →
       build_page_book ANY_QUALITY ANY_ORDERING settings asked_quality asked_ordering
         builder quality_t w
       = build_pages settings builder filtered_lines (with_heap w h1))
  ∧ build_page_book ANY_QUALITY ANY_ORDERING settings asked_quality asked_ordering
      builder quality_t w
    = build_page_book ANY_QUALITY ANY_ORDERING settings asked_quality ANY_ORDERING
        builder quality_t w.
Proof.
  intros Hdefault. split; [|split; [|split]].
  - intros l o h. by rewrite Hdefault.
  - intros builder' h1 h2 fl r Hfilter Hne%Z.eqb_neq Horder.
    rewrite build_page_book_select, select_lines_spec, Hfilter, Hne, Horder.
    by destruct r.
  - intros h1 fl Hfilter.
    rewrite build_page_book_select, select_lines_spec, Hfilter, Hdefault.
    by destruct (asked_ordering =? ANY_ORDERING).
  - rewrite !build_page_book_select, !select_lines_spec, Hdefault, Z.eqb_refl.
    destruct (filter_lines_by_quality _ _ _ _ _) as [h1 [fl|e]]; [|done].
    by destruct (asked_ordering =? ANY_ORDERING).
Qed.

Lemma build_page_book_fetcher asked_quality asked_ordering builder quality_t w :
  let f' := fetcher (build_page_book ANY_QUALITY ANY_ORDERING settings asked_quality
                       asked_ordering builder quality_t w).1 in
  lines f' = lines (fetcher w)
  ∧ _iter_is_alive f' = _iter_is_alive (fetcher w)
  ∧ _iter f' = _iter (fetcher w)
  ∧ incremental_fetching_step f' = incremental_fetching_step (fetcher w).
Proof.
  simpl. rewrite build_page_book_spec.
  pose proof (select_lines_fetcher asked_quality asked_ordering builder quality_t w) as Hf.
  destruct (select_lines _ _ _ _ _ _ _) as [w1 [fl|e]]; simpl in *; [|by rewrite Hf].
  destruct (page_sizer_factory settings fl (heap w1)) as [h2 [chunks|e]]; simpl;
    [|by rewrite Hf].
  destruct (mapM (build_page builder) chunks h2) as [h3 [pages|e]]; simpl;
    [|by rewrite Hf].
  destruct (length (omap id pages) =? 0)%nat; simpl; by rewrite Hf.
Qed.

Lemma select_lines_spares asked_quality asked_ordering builder quality_t w :
  let b := lines (fetcher w) in
  let selected := select_lines ANY_QUALITY ANY_ORDERING asked_quality asked_ordering
                    builder quality_t w in
  b ∈ dom (heap w) →
  (asked_ordering ≠ ANY_ORDERING → order_by_local b builder) →
  (asked_quality = ANY_QUALITY ∨ quality_t = None →
   asked_ordering ≠ ANY_ORDERING → order_by_keeps b builder) →
  heap selected.1 !! b = heap w !! b
  ∧ ∀ filtered_lines : loc,
      selected.2 = Return filtered_lines → filtered_lines = b →
      asked_quality = ANY_QUALITY ∨ quality_t = None.
Proof.
  intros b selected Hdom Hlocal Hkeeps. subst selected. rewrite select_lines_spec.
  destruct (filter_lines_by_quality_cases (heap w) b asked_quality quality_t)
    as [[Heq Hcase] | (t & result & _ & _ & Hfresh & Heq)]; fold b; rewrite Heq.
  - destruct (Z.eqb_spec asked_ordering ANY_ORDERING) as [_|Hne]; [done|].
    pose proof (Hkeeps Hcase Hne asked_ordering (heap w) Hdom) as Hsame.
    destruct (order_by builder _ _ _) as [h2 [[|l]|e]]; done.
  - assert (result ≠ b) as Hne by (by intros ->).
    set (h1 := <[result := _]> (heap w)).
    assert (h1 !! b = heap w !! b) as Hh1 by (unfold h1; by rewrite lookup_insert_ne).
    assert (b ∈ dom h1) as Hdom1.
    { apply elem_of_dom. rewrite Hh1. by apply elem_of_dom. }
    destruct (Z.eqb_spec asked_ordering ANY_ORDERING) as [_|Hasked]; simpl.
    { split; [done|]. by intros ? [= <-]. }
    destruct (Hlocal Hasked result asked_ordering h1 Hne Hdom1) as [Hh2 Hret].
    rewrite Hh1 in Hh2.
    destruct (order_by builder result asked_ordering h1) as [h2 [[|l]|e]];
      simpl in *; (split; [done|]); intros fl [= <-]; try done.
    by intros ->.
Qed.

Lemma build_each_spares builder (chunks : list loc) h (b : loc) :
  b ∈ dom h →
  build_page_local b builder →
  (b ∈ chunks → build_page_keeps b builder) →
  (mapM (build_page builder) chunks h).1 !! b = h !! b.
Proof.
  intros Hdom Hlocal. revert h Hdom.
  induction chunks as [|c chunks IH]; intros h Hdom Hkeeps; [done|].
  rewrite mapM_St_cons.
  assert ((build_page builder c h).1 !! b = h !! b) as Hstep.
  { destruct (decide (c = b)) as [->|Hne]; [|by apply Hlocal].
    apply Hkeeps; [by left | done]. }
  destruct (build_page builder c h) as [h1 [p|e]]; simpl in *; [|done].
  rewrite <- Hstep.
  assert ((mapM (build_page builder) chunks h1).1 !! b = h1 !! b) as Hrest.
  { apply IH.
    - apply elem_of_dom. rewrite Hstep. by apply elem_of_dom.
    - intros Hin. apply Hkeeps. by right. }
  by destruct (mapM (build_page builder) chunks h1) as [h2 [ps|e]].
Qed.

Lemma build_pages_spares builder (filtered_lines b : loc) w :
  b ∈ dom (heap w) →
  page_sizer_local b settings → build_page_local b builder →
  (filtered_lines = b → page_sizer_keeps b settings) →
  (∀ chunks,
     filtered_lines = b →
     (page_sizer_factory settings b (heap w)).2 = Return chunks →
     b ∈ chunks → build_page_keeps b builder) →
  heap (build_pages settings builder filtered_lines w).1 !! b = heap w !! b.
Proof.
  intros Hdom Hsizer Hbuild Hkeeps Hchunks. rewrite build_pages_spec.
  assert ((page_sizer_factory settings filtered_lines (heap w)).1 !! b = heap w !! b)
    as Hh2.
  { destruct (decide (filtered_lines = b)) as [->|Hne]; [by apply Hkeeps|].
    by apply Hsizer. }
  destruct (page_sizer_factory settings filtered_lines (heap w)) as [h2 [chunks|e]]
    eqn:Hrun; simpl in *; [|done].
  assert ((mapM (build_page builder) chunks h2).1 !! b = h2 !! b) as Hh3.
  { apply build_each_spares; [|done|].
    - apply elem_of_dom. rewrite Hh2. by apply elem_of_dom.
    - intros Hin. destruct (decide (filtered_lines = b)) as [->|Hne].
      + apply (Hchunks chunks); [done| |done]. by rewrite Hrun.
      + destruct (Hsizer filtered_lines (heap w) Hne Hdom) as [_ Hout].
        rewrite Hrun in Hout. by destruct (Hout chunks eq_refl). }
  destruct (mapM (build_page builder) chunks h2) as [h3 [pages|e]]; simpl in *;
    [|congruence].
  destruct (length (omap id pages) =? 0)%nat; simpl; congruence.
Qed.

Lemma build_page_book_keeps asked_quality asked_ordering builder quality_t w :
  lines (fetcher w) ∈ dom (heap w) →
  spares_buffer ANY_QUALITY ANY_ORDERING settings asked_quality asked_ordering
    builder quality_t w →
  let w' := (build_page_book ANY_QUALITY ANY_ORDERING settings asked_quality
               asked_ordering builder quality_t w).1 in
  lines (fetcher w') = lines (fetcher w)
  ∧ heap w' !! lines (fetcher w) = heap w !! lines (fetcher w).
Proof.
  intros Hdom (Horder & Hsizer & Hbuild & Hcase). simpl. split.
  { apply build_page_book_fetcher. }
  rewrite build_page_book_select.
  destruct (select_lines_spares asked_quality asked_ordering builder quality_t w
              Hdom Horder) as [Hh1 Hsame].
  { intros Hpass Hne. destruct Hcase as [[Hq Ht]|(Hkeeps & _)]; [|by apply Hkeeps].
    by destruct Hpass. }
  destruct (select_lines _ _ _ _ _ _ _) as [w1 [fl|e]]; simpl in *; [|done].
  rewrite <- Hh1.
  assert (b_dom : lines (fetcher w) ∈ dom (heap w1)).
  { apply elem_of_dom. rewrite Hh1. by apply elem_of_dom. }
  apply build_pages_spares; [done|done|done| |].
  - intros ->. destruct Hcase as [[Hq Ht]|(_ & Hkeeps & _)]; [|by apply Hkeeps].
    by destruct (Hsame _ eq_refl eq_refl).
  - intros chunks ->. destruct Hcase as [[Hq Ht]|(_ & _ & Hkeeps)].
    + by destruct (Hsame _ eq_refl eq_refl).
    + by apply Hkeeps.
Qed.

(** C7, as the code has it.  The filter writes to no list that exists.
    Take a builder and a page sizer that reach the buffer only by being
    handed it: handed another list, they leave the buffer as it is and
    do not hand it back.  When the filter does not pass through, what
    [build_page_book] hands them is a new list, and the records of the
    fetcher after the call are the records before it, whatever
    [order_by], the sizer and [build_page] do to the list they receive.
    When the filter passes through, no copy is made on the way, and the
    buffer itself is handed to [order_by] (when an ordering is asked),
    to the sizer (unless [order_by] returned another list) and to
    [build_page] (when it is among the chunks of the sizer): the
    records are then kept if whichever of the three is handed the
    buffer leaves it as it is. *)
Theorem build_page_book_keeps_buffer asked_quality asked_ordering builder quality_t w :
  lines (fetcher w) ∈ dom (heap w) →
  spares_buffer ANY_QUALITY ANY_ORDERING settings asked_quality asked_ordering
    builder quality_t w →
  (∃ h1 (filtered_lines : loc),
     filter_lines_by_quality ANY_QUALITY (lines (fetcher w)) asked_quality
       quality_t (heap w) = (h1, Return filtered_lines)
     ∧ heap w ⊆ h1)
  ∧ buffer (build_page_book ANY_QUALITY ANY_ORDERING settings asked_quality
              asked_ordering builder quality_t w).1
    = buffer w.
Proof.
  intros Hdom Hspares.
  split; [apply filter_lines_by_quality_store|].
  destruct (build_page_book_keeps asked_quality asked_ordering builder quality_t w
              Hdom Hspares) as [Hlines Hlookup].
  unfold buffer. rewrite Hlines.
  unfold lookup_total, map_lookup_total. by rewrite Hlookup.
Qed.
End ManagerFacts.
(** ** Sequences of calls *)

Section SessionFacts.
Context {T S : Type} (anext : S → S * outcome (Line T)).
Variables ANY_QUALITY ANY_ORDERING : Z.
Variable settings : PaginatorSettings T.
Implicit Types (w : world T S) (c : call T) (cs : list (call T)).

Lemma grows_trans w1 w2 w3 : grows w1 w2 → grows w2 w3 → grows w1 w3.
Proof.
  intros (Hl1 & Hd1 & Hp1) (Hl2 & Hd2 & Hp2). split; [congruence|].
  split; [done|]. by etrans.
Qed.

Lemma fetch_more_exhausted w :
  _iter_is_alive (fetcher w) = false → fetch_more anext w = (w, Return ()).
Proof. intros Halive. by rewrite fetch_more_spec, Halive. Qed.

Lemma fetch_more_grows w :
  lines (fetcher w) ∈ dom (heap w) → grows w (fetch_more anext w).1.
Proof.
  intros Hdom. rewrite fetch_more_spec.
  destruct (_iter_is_alive (fetcher w)); [|done].
  destruct (pull anext _ _) as [[xs s] e]. unfold grows, buffer. simpl.
  split; [done|]. split; [by rewrite appended_dom|].
  rewrite appended_lookup_total. by apply prefix_app_r.
Qed.

Lemma fetch_all_exhausted fuel w w' r :
  fetch_all anext fuel w = Some (w', r) →
  _iter_is_alive (fetcher w) = false → w' = w.
Proof. intros Hrun Halive. destruct fuel; simpl in Hrun; rewrite Halive in Hrun; naive_solver. Qed.

Lemma fetch_all_grows fuel w w' r :
  fetch_all anext fuel w = Some (w', r) →
  lines (fetcher w) ∈ dom (heap w) → grows w w'.
Proof.
  revert w. induction fuel as [|fuel IH]; intros w Hrun Hdom; simpl in Hrun;
    destruct (_iter_is_alive (fetcher w)); simpl in Hrun; simplify_eq; try done.
  pose proof (fetch_more_grows w Hdom) as Hg.
  destruct (fetch_more anext w) as [w1 [[]|e]]; simpl in *.
  - apply (grows_trans _ w1); [done|]. apply IH; [done|].
    destruct Hg as (Hl & Hd & _). done.
  - by simplify_eq.
Qed.

Lemma build_page_book_grows asked_quality asked_ordering builder quality_t w :
  lines (fetcher w) ∈ dom (heap w) →
  spares_buffer ANY_QUALITY ANY_ORDERING settings asked_quality asked_ordering
    builder quality_t w →
  grows w (build_page_book ANY_QUALITY ANY_ORDERING settings asked_quality
             asked_ordering builder quality_t w).1.
Proof.
  intros Hdom Hp.
  destruct (build_page_book_keeps ANY_QUALITY ANY_ORDERING settings asked_quality
              asked_ordering builder quality_t w Hdom Hp) as [Hlines Hlookup].
  unfold grows, buffer. rewrite Hlines. split; [done|]. split.
  - apply elem_of_dom. rewrite Hlookup. by apply elem_of_dom.
  - unfold lookup_total, map_lookup_total. by rewrite Hlookup.
Qed.

Lemma run_call_stays_exhausted c w w' :
  run_call anext ANY_QUALITY ANY_ORDERING settings c w = Some w' →
  _iter_is_alive (fetcher w) = false → _iter_is_alive (fetcher w') = false.
Proof.
  intros Hrun Halive. destruct c as [|fuel|q o b t]; simpl in Hrun.
  - rewrite fetch_more_exhausted in Hrun by done. by simplify_eq.
  - destruct (fetch_all anext fuel w) as [[w1 r]|] eqn:Hall; simplify_eq/=.
    by rewrite (fetch_all_exhausted _ _ _ _ Hall Halive).
  - simplify_eq.
    destruct (build_page_book_fetcher ANY_QUALITY ANY_ORDERING settings q o b t w)
      as (_ & -> & _). done.
Qed.

Lemma run_call_grows c w w' :
  run_call anext ANY_QUALITY ANY_ORDERING settings c w = Some w' →
  lines (fetcher w) ∈ dom (heap w) →
  call_spares_buffer ANY_QUALITY ANY_ORDERING settings c w →
  grows w w'.
Proof.
  intros Hrun Hdom Hok. destruct c as [|fuel|q o b t]; simpl in Hrun.
  - simplify_eq. by apply fetch_more_grows.
  - destruct (fetch_all anext fuel w) as [[w1 r]|] eqn:Hall; simplify_eq/=.
    by eapply fetch_all_grows.
  - simplify_eq. by apply build_page_book_grows.
Qed.

Lemma calls_spare_buffer_intro cs w :
  lines (fetcher w) ∈ dom (heap w) →
  Forall (fun c => ∀ w, lines (fetcher w) ∈ dom (heap w) →
                        call_spares_buffer ANY_QUALITY ANY_ORDERING settings c w) cs →
  calls_spare_buffer anext ANY_QUALITY ANY_ORDERING settings cs w.
Proof.
  intros Hdom Hcs. revert w Hdom.
  induction Hcs as [|c cs Hc Hcs IH]; intros w Hdom; simpl; [done|].
  split; [by apply Hc|].
  destruct (run_call _ _ _ _ c w) as [w1|] eqn:Hrun; [|done].
  apply IH. by destruct (run_call_grows c w w1 Hrun Hdom (Hc w Hdom)) as (_ & ? & _).
Qed.

(** C4, as the code has it.  Over any sequence of [fetch_more],
    [fetch_all] and [build_page_book] calls that returns: an alive
    flag that is false stays false; [fetch_more] on a fetcher whose
    [all_fetched()] is true changes nothing; and the records of before
    are still there, in place, at the head of the buffer, provided the
    buffer is among the lists of the store and every call of
    [build_page_book] can be trusted with it: the builder and the page
    sizer reach the buffer only by being handed it, and whichever of
    [order_by], the sizer and [build_page] is handed the buffer itself,
    as happens when the filter of the call passes through, leaves it as
    it is. *)
Theorem fetcher_invariants cs w w' :
  run_calls anext ANY_QUALITY ANY_ORDERING settings cs w = Some w' →
  (_iter_is_alive (fetcher w) = false → _iter_is_alive (fetcher w') = false)
  ∧ (all_fetched w' = true → fetch_more anext w' = (w', Return ()))
  ∧ (lines (fetcher w) ∈ dom (heap w) →
     calls_spare_buffer anext ANY_QUALITY ANY_ORDERING settings cs w →
     buffer w `prefix_of` buffer w').
Proof.
  intros Hrun. split; [|split].
  - revert w Hrun. induction cs as [|c cs IH]; intros w Hrun Halive; simpl in Hrun.
    + by simplify_eq.
    + destruct (run_call _ _ _ _ c w) as [w1|] eqn:Hc; [|done].
      apply (IH w1 Hrun). by eapply run_call_stays_exhausted.
  - unfold all_fetched. intros Halive%negb_true_iff. by apply fetch_more_exhausted.
  - intros Hdom Hok.
    cut (grows w w'); [by intros (_ & _ & ?)|].
    revert w Hrun Hdom Hok. induction cs as [|c cs IH]; intros w Hrun Hdom Hok;
      simpl in Hrun, Hok.
    + simplify_eq. by repeat split.
    + destruct Hok as [Hc Hcs].
      destruct (run_call _ _ _ _ c w) as [w1|] eqn:Hrc; [|done].
      pose proof (run_call_grows c w w1 Hrc Hdom Hc) as Hg.
      apply (grows_trans _ w1); [done|].
      destruct Hg as (Hl & Hd & _). by apply IH.
Qed.
End SessionFacts.

(** ** The builders and the page sizer of the examples *)

Lemma string_app_nil_r (s : string) : s +:+ "" = s.
Proof.
  induction s as [|c s IH]; [done|].
  change (String c s +:+ "") with (String c (s +:+ "")). by rewrite IH.
Qed.

Lemma string_app_assoc (s1 s2 s3 : string) : (s1 +:+ s2) +:+ s3 = s1 +:+ s2 +:+ s3.
Proof.
  induction s1 as [|c s1 IH]; [done|].
  change (String c s1 +:+ s2) with (String c (s1 +:+ s2)).
  change (String c (s1 +:+ s2) +:+ s3) with (String c ((s1 +:+ s2) +:+ s3)).
  change (String c s1 +:+ s2 +:+ s3) with (String c (s1 +:+ s2 +:+ s3)).
  by rewrite IH.
Qed.

Section BuilderFacts.
Context {T : Type}.
Implicit Types (h : gmap loc (list (Line T))).
Implicit Types (builder : ABCPageBuilder T) (settings : PaginatorSettings T).

Lemma preserved_lookup h h' (b : loc) : h ⊆ h' → b ∈ dom h → h' !! b = h !! b.
Proof. intros Hsub [v Hv]%elem_of_dom. rewrite Hv. by apply (lookup_weaken h). Qed.

(** A method that leaves every existing list alone and hands back new
    lists only, or the one it was handed, reaches no list but by being
    handed it. *)
Lemma order_by_preserves_local builder (b : loc) :
  order_by_preserves builder →
  (∀ l o h l', (order_by builder l o h).2 = Return (Lines l') → l' = l ∨ l' ∉ dom h) →
  order_by_local b builder.
Proof.
  intros Hp Hret l o h Hne Hdom. split; [by apply preserved_lookup|].
  intros Hout. by destruct (Hret l o h b Hout).
Qed.

Lemma page_sizer_preserves_local settings (b : loc) :
  page_sizer_preserves settings →
  (∀ l h chunks, (page_sizer_factory settings l h).2 = Return chunks →
     Forall (fun selected_lines => selected_lines = l ∨ selected_lines ∉ dom h) chunks) →
  page_sizer_local b settings.
Proof.
  intros Hp Hret l h Hne Hdom. split; [by apply preserved_lookup|].
  intros chunks Hout Hin. pose proof (Hret l h chunks Hout) as Hall.
  rewrite Forall_forall in Hall. by destruct (Hall b Hin).
Qed.

Lemma build_page_preserves_local builder (b : loc) :
  build_page_preserves builder → build_page_local b builder.
Proof. intros Hp l h Hne Hdom. by apply preserved_lookup. Qed.

Lemma order_by_preserves_keeps builder (b : loc) :
  order_by_preserves builder → order_by_keeps b builder.
Proof. intros Hp o h Hdom. by apply preserved_lookup. Qed.

Lemma page_sizer_preserves_keeps settings (b : loc) :
  page_sizer_preserves settings → page_sizer_keeps b settings.
Proof. intros Hp h Hdom. by apply preserved_lookup. Qed.

Lemma build_page_preserves_keeps builder (b : loc) :
  build_page_preserves builder → build_page_keeps b builder.
Proof. intros Hp h Hdom. by apply preserved_lookup. Qed.
End BuilderFacts.

Section SparingFacts.
Context {T S : Type}.
Variables ANY_QUALITY ANY_ORDERING : Z.
Variable settings : PaginatorSettings T.
Implicit Types (w : world T S) (builder : ABCPageBuilder T) (quality_t : option FLAG_T).

(** A builder and a sizer that leave every existing list alone can be
    trusted with the buffer in every call. *)
Lemma preserves_spares_buffer builder asked_quality asked_ordering quality_t w :
  order_by_local (lines (fetcher w)) builder → order_by_preserves builder →
  page_sizer_local (lines (fetcher w)) settings → page_sizer_preserves settings →
  build_page_preserves builder →
  spares_buffer ANY_QUALITY ANY_ORDERING settings asked_quality asked_ordering
    builder quality_t w.
Proof.
  intros Hol Hop Hsl Hsp Hbp. split; [done|]. split; [done|].
  split; [by apply build_page_preserves_local|]. right.
  split; [intros _; by apply order_by_preserves_keeps|].
  split; [intros _; by apply page_sizer_preserves_keeps|].
  intros chunks _ _ _. by apply build_page_preserves_keeps.
Qed.

(** Behind a filter that does not pass through, so can every builder
    and sizer that reach the buffer only by being handed it. *)
Lemma real_filter_spares_buffer builder asked_quality asked_ordering quality_t w :
  asked_quality ≠ ANY_QUALITY → quality_t ≠ None →
  order_by_local (lines (fetcher w)) builder →
  page_sizer_local (lines (fetcher w)) settings →
  build_page_local (lines (fetcher w)) builder →
  spares_buffer ANY_QUALITY ANY_ORDERING settings asked_quality asked_ordering
    builder quality_t w.
Proof.
  intros Hq Ht Hol Hsl Hbl. split; [done|]. split; [done|]. split; [done|]. by left.
Qed.
End SparingFacts.

Section NaiveBuilderFacts.
Context {T : Type}.
Implicit Types (h : gmap loc (list (Line T))).
Implicit Types (builder : ABCPageBuilder T) (settings : PaginatorSettings T).

Lemma build_page_reads_preserves builder render :
  build_page_reads builder render → build_page_preserves builder.
Proof. intros Hr l h. apply Hr. Qed.

(** The base class and [NaivePageBuilder] *)

Lemma ABCPageBuilder_order_by_local builder (b : loc) :
  order_by builder = ABCPageBuilder_order_by → order_by_local b builder.
Proof. intros Heq l o h Hne Hdom. by rewrite Heq. Qed.

Lemma ABCPageBuilder_order_by_preserves builder :
  order_by builder = ABCPageBuilder_order_by → order_by_preserves builder.
Proof. intros Heq l o h. by rewrite Heq. Qed.

Lemma NaivePageBuilder_build_page base_text (l : loc) h :
  build_page (NaivePageBuilder base_text) l h = (h, naive_render base_text (h !!! l)).
Proof.
  simpl. unfold mbind, St_bind, read_list, gets, naive_render, naive_page. simpl.
  destruct (h !!! l) as [|line contents]; [done|].
  by rewrite string_app_assoc.
Qed.

Lemma NaivePageBuilder_build_page_reads base_text :
  build_page_reads (NaivePageBuilder (T:=T) base_text) (naive_render base_text).
Proof. intros l h. by rewrite NaivePageBuilder_build_page. Qed.

(** The sizer of [chunked_settings] *)

Lemma alloc_lists (chunks : list (list (Line T))) h :
  ∃ h' (ls : list loc),
    mapM alloc_list chunks h = (h', Return ls)
    ∧ h ⊆ h'
    ∧ Forall (fun l => (l ∉ dom h) ∧ l ∈ dom h') ls
    ∧ (fun l => h' !!! l) <$> ls = chunks.
Proof.
  revert h. induction chunks as [|v chunks IH]; intros h.
  { exists h, []. by repeat split. }
  set (l := fresh (dom h)).
  assert (h !! l = None) as Hfresh by apply not_elem_of_dom, is_fresh.
  destruct (IH (<[l := v]> h)) as (h' & ls & Hrun & Hsub & Hls & Hcontents).
  exists h', (l :: ls). split; [|split; [|split]].
  - rewrite mapM_St_cons. unfold alloc_list at 1. fold l. by rewrite Hrun.
  - etrans; [by apply insert_subseteq | done].
  - constructor.
    + split; [by apply not_elem_of_dom|].
      apply elem_of_dom. exists v. apply (lookup_weaken (<[l := v]> h)); [|done].
      by rewrite lookup_insert_eq.
    + eapply Forall_impl; [exact Hls|]. intros l' [Hnew Hin]. split; [|done].
      intros Hold. apply Hnew. rewrite dom_insert. set_solver.
  - rewrite fmap_cons, Hcontents. f_equal.
    unfold lookup_total, map_lookup_total.
    rewrite (lookup_weaken (<[l := v]> h) h' l v); [done| |done].
    by rewrite lookup_insert_eq.
Qed.

Lemma chunked_settings_page_sizer (size : nat) (l : loc) h :
  page_sizer_factory (chunked_settings size) l h
  = mapM alloc_list (chunks_of (length (h !!! l)) size (h !!! l)) h.
Proof. done. Qed.

Lemma chunked_settings_preserves (size : nat) :
  page_sizer_preserves (chunked_settings (T:=T) size).
Proof.
  intros l h. rewrite chunked_settings_page_sizer.
  destruct (alloc_lists (chunks_of (length (h !!! l)) size (h !!! l)) h)
    as (h' & ls & -> & Hsub & _). done.
Qed.

Lemma chunked_settings_local (size : nat) (b : loc) :
  page_sizer_local b (chunked_settings (T:=T) size).
Proof.
  apply page_sizer_preserves_local; [apply chunked_settings_preserves|].
  intros l h chunks. rewrite chunked_settings_page_sizer.
  destruct (alloc_lists (chunks_of (length (h !!! l)) size (h !!! l)) h)
    as (h' & ls & -> & _ & Hls & _). simpl. intros [= <-].
  eapply Forall_impl; [exact Hls|]. intros l' [Hnew _]. by right.
Qed.

Lemma chunked_settings_reads (size : nat) :
  page_sizer_reads (chunked_settings (T:=T) size) (chunked size).
Proof.
  intros l h. rewrite chunked_settings_page_sizer.
  destruct (alloc_lists (chunks_of (length (h !!! l)) size (h !!! l)) h)
    as (h' & ls & -> & Hsub & Hls & Hcontents). simpl. split; [done|].
  intros _. split; [|done].
  eapply Forall_impl; [exact Hls|]. by intros l' [_ Hin].
Qed.

Lemma page_sizer_reads_preserves settings sizer :
  page_sizer_reads settings sizer → page_sizer_preserves settings.
Proof. intros Hr l h. apply Hr. Qed.

(** The chunks of [chunked_settings] are new lists, all of them. *)
Lemma chunked_settings_new (size : nat) (l : loc) h chunks :
  (page_sizer_factory (chunked_settings size) l h).2 = Return chunks →
  Forall (fun selected_lines => selected_lines ∉ dom h) chunks.
Proof.
  rewrite chunked_settings_page_sizer.
  destruct (alloc_lists (chunks_of (length (h !!! l)) size (h !!! l)) h)
    as (h' & ls & -> & _ & Hls & _). simpl. intros [= <-].
  eapply Forall_impl; [exact Hls|]. by intros l' [Hnew _].
Qed.
End NaiveBuilderFacts.

Section ExampleBuilderFacts.
Implicit Types (h : gmap loc (list (Line Z))).

Lemma SortingPageBuilder_order_by_preserves base_text :
  order_by_preserves (SortingPageBuilder base_text).
Proof.
  intros l o h. simpl.
  unfold mbind, St_bind, read_list, alloc_list, write_list, gets, modify. simpl.
  assert (h !! fresh (dom h) = None) as Hfresh by apply not_elem_of_dom, is_fresh.
  destruct (o =? Sorting.FROM_HIGHEST); simpl;
    [|destruct (o =? Sorting.FROM_LOWEST); simpl];
    rewrite ?insert_insert_eq; by apply insert_subseteq.
Qed.

Lemma SortingPageBuilder_order_by_local base_text (b : loc) :
  order_by_local b (SortingPageBuilder base_text).
Proof.
  apply order_by_preserves_local; [apply SortingPageBuilder_order_by_preserves|].
  intros l o h l'. simpl.
  unfold mbind, St_bind, read_list, alloc_list, write_list, gets, modify. simpl.
  destruct (o =? Sorting.FROM_HIGHEST); simpl;
    [|destruct (o =? Sorting.FROM_LOWEST); simpl];
    intros [= <-]; right; apply is_fresh.
Qed.

Lemma SortingPageBuilder_build_page_reads base_text :
  build_page_reads (SortingPageBuilder base_text) (naive_render base_text).
Proof. apply (NaivePageBuilder_build_page_reads (T:=Z)). Qed.

Lemma InPlaceSortingPageBuilder_order_by_local base_text (b : loc) :
  order_by_local b (InPlaceSortingPageBuilder base_text).
Proof.
  intros l o h Hne Hdom. simpl.
  unfold mbind, St_bind, read_list, write_list, gets, modify. simpl. split.
  - by rewrite lookup_insert_ne.
  - by intros [= <-].
Qed.

Lemma InPlaceSortingPageBuilder_build_page_reads base_text :
  build_page_reads (InPlaceSortingPageBuilder base_text) (naive_render base_text).
Proof. apply (NaivePageBuilder_build_page_reads (T:=Z)). Qed.

Lemma ConsumingPageBuilder_build_page_local base_text (b : loc) :
  build_page_local b (ConsumingPageBuilder base_text).
Proof.
  intros l h Hne Hdom.
  change (build_page (ConsumingPageBuilder base_text) l h)
    with (match build_page (NaivePageBuilder (T:=Z) base_text) l h with
          | (h1, Return page) => (<[l := []]> h1, Return page)
          | (h1, Raise e) => (h1, Raise e)
          end).
  rewrite NaivePageBuilder_build_page. unfold naive_render. simpl.
  by rewrite lookup_insert_ne.
Qed.
End ExampleBuilderFacts.

(** ** The model at work *)

(** [filter_lines_by_quality_correct] on the three fetched records, asked
    for the even ones. *)
Lemma filter_lines_by_quality_correct_witness :
  let h := heap Example.fetched in
  Filters.EVEN ≠ Example.ANY_QUALITY
  ∧ ∃ result : loc,
      let records := h !!! 0%nat in
      let filtered := List.filter (qualifiesb Filters.new Filters.EVEN) records in
      filter_lines_by_quality Example.ANY_QUALITY 0%nat Filters.EVEN (Some Filters.new) h
      = (<[result := filtered]> h, Return result)
      ∧ (result ∉ dom h)
      ∧ (filtered `sublist_of` records)
      ∧ ∀ line, line ∈ filtered ↔ line ∈ records ∧ qualifies Filters.new Filters.EVEN line.
Proof.
  assert (Filters.EVEN ≠ Example.ANY_QUALITY) as Hne by (vm_compute; discriminate).
  split; [exact Hne|].
  exact (filter_lines_by_quality_correct Example.ANY_QUALITY (heap Example.fetched)
           0%nat Filters.EVEN Filters.new Hne).
Defined.

(** The records the filter returns there. *)
Example filter_even :
  List.filter (qualifiesb Filters.new Filters.EVEN) (buffer Example.fetched)
  = [mkLine "2" 2 2].
Proof. by vm_compute. Qed.

(** With a bound of 0 the batch is not one fewer than the bound: the
    source has records left, [range(1, 0)] is empty, nothing is appended,
    and that is not [0 - 1] records. *)
Lemma fetch_more_zero_bound :
  let w := Example.started 0 in
  let w' := (fetch_more filtering_fetcher w).1 in
  _iter_is_alive (fetcher w) = true
  ∧ has_remaining filtering_fetcher (Z.to_nat (incremental_fetching_step (fetcher w)))
      (_iter (fetcher w))
  ∧ has_remaining filtering_fetcher 10 (_iter (fetcher w))
  ∧ Z.of_nat (length (buffer w')) - Z.of_nat (length (buffer w)) = 0
  ∧ Z.of_nat (length (buffer w')) - Z.of_nat (length (buffer w))
    ≠ incremental_fetching_step (fetcher w) - 1.
Proof. by vm_compute. Qed.

(** [fetch_more_batch] with a bound of 4: three records are appended. *)
Lemma fetch_more_batch_witness :
  let w := Example.started 4 in
  let step := incremental_fetching_step (fetcher w) in
  let w' := (fetch_more filtering_fetcher w).1 in
  let added := Z.of_nat (length (buffer w')) - Z.of_nat (length (buffer w)) in
  _iter_is_alive (fetcher w) = true
  ∧ has_remaining filtering_fetcher (Z.to_nat step) (_iter (fetcher w))
  ∧ (fetch_more filtering_fetcher w).2 = Return ()
  ∧ _iter_is_alive (fetcher w') = true
  ∧ buffer w' = buffer w ++ (pull filtering_fetcher (Z.to_nat (step - 1)) (_iter (fetcher w))).1.1
  ∧ added = Z.max 0 (step - 1)
  ∧ (1 ≤ step → added = step - 1 ∧ added ≤ step)
  ∧ (step ≤ 0 → buffer w' = buffer w).
Proof.
  assert (_iter_is_alive (fetcher (Example.started 4)) = true) as Halive by reflexivity.
  assert (has_remaining filtering_fetcher
            (Z.to_nat (incremental_fetching_step (fetcher (Example.started 4))))
            (_iter (fetcher (Example.started 4)))) as Hrem by (by vm_compute).
  split; [exact Halive|]. split; [exact Hrem|].
  exact (fetch_more_batch filtering_fetcher (Example.started 4) Halive Hrem).
Defined.

(** A runtime error that is neither the end of the sequence nor the
    reentrancy violation is caught all the same: the source yields a
    record and then raises "connection lost"; the call does not hand the
    exception to its caller but returns normally with the alive flag
    cleared. *)
Lemma fetch_more_swallows_runtime_error :
  let w := Example.flaky in
  let after := fetch_more scripted_anext w in
  (pull scripted_anext 99 Example.flaky_source).2 = Some Example.connection_lost
  ∧ Example.connection_lost ≠ StopAsyncIteration
  ∧ Example.connection_lost ≠ reentrancy_violation
  ∧ after.2 = Return ()
  ∧ after.2 ≠ Raise Example.connection_lost
  ∧ _iter_is_alive (fetcher after.1) = false
  ∧ buffer after.1 = [mkLine "1" 4 1].
Proof. by vm_compute. Qed.

(** [fetch_more_raise] twice: the runtime error is caught, the exception
    of another class is not; the record fetched before either stays. *)
Lemma fetch_more_raise_witness :
  let w1 := Example.flaky in
  let w2 := Example.broken in
  let rest := [Return (mkLine "2" 2 2)] in
  (_iter_is_alive (fetcher w1) = true
   ∧ pull scripted_anext 99 Example.flaky_source
     = ([mkLine "1" 4 1], rest, Some (RuntimeError "connection lost"))
   ∧ buffer (fetch_more scripted_anext w1).1 = buffer w1 ++ [mkLine "1" 4 1]
   ∧ (fetch_more scripted_anext w1).2 = Return ()
   ∧ _iter_is_alive (fetcher (fetch_more scripted_anext w1).1) = false)
  ∧ (_iter_is_alive (fetcher w2) = true
     ∧ pull scripted_anext 99 Example.broken_source
       = ([mkLine "1" 4 1], rest, Some (OtherException "OSError"))
     ∧ buffer (fetch_more scripted_anext w2).1 = buffer w2 ++ [mkLine "1" 4 1]
     ∧ (fetch_more scripted_anext w2).2 = Raise (OtherException "OSError")
     ∧ _iter_is_alive (fetcher (fetch_more scripted_anext w2).1) = true).
Proof.
  pose (w1 := Example.flaky).
  pose (w2 := Example.broken).
  assert (_iter_is_alive (fetcher w1) = true) as Ha1 by reflexivity.
  assert (_iter_is_alive (fetcher w2) = true) as Ha2 by reflexivity.
  assert (pull scripted_anext (Z.to_nat (incremental_fetching_step (fetcher w1) - 1))
            (_iter (fetcher w1))
          = ([mkLine "1" 4 1], [Return (mkLine "2" 2 2)],
             Some (RuntimeError "connection lost"))) as Hp1 by (by vm_compute).
  assert (pull scripted_anext (Z.to_nat (incremental_fetching_step (fetcher w2) - 1))
            (_iter (fetcher w2))
          = ([mkLine "1" 4 1], [Return (mkLine "2" 2 2)],
             Some (OtherException "OSError"))) as Hp2 by (by vm_compute).
  pose proof (fetch_more_raise scripted_anext w1 _ _ _ Ha1 Hp1) as [Hb1 [Hr1 Hf1]].
  pose proof (fetch_more_raise scripted_anext w2 _ _ _ Ha2 Hp2) as [Hb2 [Hr2 Hf2]].
  split.
  - split; [exact Ha1|]. split; [exact Hp1|]. split; [exact Hb1|].
    split; [exact Hr1|exact Hf1].
  - split; [exact Ha2|]. split; [exact Hp2|]. split; [exact Hb2|].
    split; [exact Hr2|exact Hf2].
Defined.

(** The buffer is not safe from every [order_by]: with no flag type the
    filter returns the buffer of the fetcher itself, the [order_by] of
    this builder sorts the list it is handed from highest to lowest, and
    the buffer is in another order after the call. *)
Lemma build_page_book_reorders_buffer :
  let w := Example.fetched in
  let w' := (build_page_book Example.ANY_QUALITY Example.ANY_ORDERING Example.settings
               Filters.EVEN Sorting.FROM_HIGHEST
               (InPlaceSortingPageBuilder "Result is: ") None w).1 in
  buffer w = [mkLine "1" 4 1; mkLine "2" 2 2; mkLine "3" 4 3]
  ∧ buffer w' = [mkLine "3" 4 3; mkLine "2" 2 2; mkLine "1" 4 1]
  ∧ buffer w' ≠ buffer w.
Proof. by vm_compute. Qed.

(** The buffer is not safe from the page sizer and [build_page] either:
    no quality and no ordering is asked, the sizer makes one page of the
    list it is handed without copying it, [build_page] uses up the list
    it is handed, and the buffer is empty after the call. *)
Example build_page_book_consumes_buffer :
  let w := Example.fetched in
  let built := build_page_book Example.ANY_QUALITY Example.ANY_ORDERING whole_settings
                 Example.ANY_QUALITY Example.ANY_ORDERING
                 (ConsumingPageBuilder "Result is: ") (Some Filters.new) w in
  buffer w = [mkLine "1" 4 1; mkLine "2" 2 2; mkLine "3" 4 3]
  ∧ built.2 = Return [{| page_text := "Result is: " +:+ newline +:+ "1" +:+ newline
                                        +:+ "2" +:+ newline +:+ "3" |}]
  ∧ buffer built.1 = [].
Proof. by vm_compute. Qed.

(** [build_page_book_keeps_buffer] three times: the builder that sorts
    in place behind a filter that does not pass through; the builder of
    the example, which sorts a copy, behind one that does; and the
    builder that uses up what it is handed, with no filter and no
    ordering, behind the sizer that slices. *)
Lemma build_page_book_keeps_buffer_witness :
  let w := Example.fetched in
  let spares := spares_buffer Example.ANY_QUALITY Example.ANY_ORDERING Example.settings in
  let build := build_page_book Example.ANY_QUALITY Example.ANY_ORDERING Example.settings in
  lines (fetcher w) ∈ dom (heap w)
  ∧ (spares Filters.UNEVEN Sorting.FROM_HIGHEST
       (InPlaceSortingPageBuilder "Result is: ") (Some Filters.new) w
     ∧ buffer (build Filters.UNEVEN Sorting.FROM_HIGHEST
                 (InPlaceSortingPageBuilder "Result is: ") (Some Filters.new) w).1
       = buffer w)
  ∧ (spares Example.ANY_QUALITY Sorting.FROM_HIGHEST
       (SortingPageBuilder "Result is: ") (Some Filters.new) w
     ∧ buffer (build Example.ANY_QUALITY Sorting.FROM_HIGHEST
                 (SortingPageBuilder "Result is: ") (Some Filters.new) w).1
       = buffer w)
  ∧ (spares Example.ANY_QUALITY Example.ANY_ORDERING
       (ConsumingPageBuilder "Result is: ") None w
     ∧ buffer (build Example.ANY_QUALITY Example.ANY_ORDERING
                 (ConsumingPageBuilder "Result is: ") None w).1
       = buffer w).
Proof.
  assert (lines (fetcher Example.fetched) ∈ dom (heap Example.fetched)) as Hdom.
  { apply elem_of_dom. eexists. reflexivity. }
  assert (spares_buffer Example.ANY_QUALITY Example.ANY_ORDERING Example.settings
            Filters.UNEVEN Sorting.FROM_HIGHEST
            (InPlaceSortingPageBuilder "Result is: ") (Some Filters.new) Example.fetched)
    as Hinplace.
  { apply real_filter_spares_buffer.
    - vm_compute. discriminate.
    - discriminate.
    - apply InPlaceSortingPageBuilder_order_by_local.
    - apply chunked_settings_local.
    - exact (build_page_preserves_local _ _
               (build_page_reads_preserves _ _
                  (InPlaceSortingPageBuilder_build_page_reads "Result is: "))). }
  assert (spares_buffer Example.ANY_QUALITY Example.ANY_ORDERING Example.settings
            Example.ANY_QUALITY Sorting.FROM_HIGHEST
            (SortingPageBuilder "Result is: ") (Some Filters.new) Example.fetched)
    as Hsorting.
  { apply preserves_spares_buffer.
    - apply SortingPageBuilder_order_by_local.
    - apply SortingPageBuilder_order_by_preserves.
    - apply chunked_settings_local.
    - apply chunked_settings_preserves.
    - exact (build_page_reads_preserves _ _
               (SortingPageBuilder_build_page_reads "Result is: ")). }
  assert (spares_buffer Example.ANY_QUALITY Example.ANY_ORDERING Example.settings
            Example.ANY_QUALITY Example.ANY_ORDERING
            (ConsumingPageBuilder "Result is: ") None Example.fetched)
    as Hconsuming.
  { split; [by intros []|]. split; [apply chunked_settings_local|].
    split; [apply ConsumingPageBuilder_build_page_local|]. right.
    split; [by intros []|].
    split; [intros _; apply page_sizer_preserves_keeps, chunked_settings_preserves|].
    intros chunks _ Hchunks Hin.
    pose proof (chunked_settings_new _ _ _ _ Hchunks) as Hnew.
    rewrite Forall_forall in Hnew. destruct (Hnew _ Hin).
    apply elem_of_dom. eexists. reflexivity. }
  split; [exact Hdom|]. split; [|split].
  - split; [exact Hinplace|].
    exact (proj2 (build_page_book_keeps_buffer Example.ANY_QUALITY Example.ANY_ORDERING
                    Example.settings Filters.UNEVEN Sorting.FROM_HIGHEST
                    (InPlaceSortingPageBuilder "Result is: ") (Some Filters.new)
                    Example.fetched Hdom Hinplace)).
  - split; [exact Hsorting|].
    exact (proj2 (build_page_book_keeps_buffer Example.ANY_QUALITY Example.ANY_ORDERING
                    Example.settings Example.ANY_QUALITY Sorting.FROM_HIGHEST
                    (SortingPageBuilder "Result is: ") (Some Filters.new)
                    Example.fetched Hdom Hsorting)).
  - split; [exact Hconsuming|].
    exact (proj2 (build_page_book_keeps_buffer Example.ANY_QUALITY Example.ANY_ORDERING
                    Example.settings Example.ANY_QUALITY Example.ANY_ORDERING
                    (ConsumingPageBuilder "Result is: ") None
                    Example.fetched Hdom Hconsuming)).
Defined.

(** What the first two calls of that witness return. *)
Example build_page_book_sorted_pages :
  (build_page_book Example.ANY_QUALITY Example.ANY_ORDERING Example.settings
     Filters.UNEVEN Sorting.FROM_HIGHEST
     (InPlaceSortingPageBuilder "Result is: ") (Some Filters.new) Example.fetched).2
  = Return [{| page_text := "Result is: " +:+ newline +:+ "3" +:+ newline +:+ "1" |}]
  ∧ (build_page_book Example.ANY_QUALITY Example.ANY_ORDERING Example.settings
       Example.ANY_QUALITY Sorting.FROM_HIGHEST
       (SortingPageBuilder "Result is: ") (Some Filters.new) Example.fetched).2
    = Return [{| page_text := "Result is: " +:+ newline +:+ "3" +:+ newline +:+ "2" |};
              {| page_text := "Result is: " +:+ newline +:+ "1" |}].
Proof. by vm_compute. Qed.

(** [order_by_not_implemented] on the naive builder, which does not
    override [order_by], asked for the even records from lowest to
    highest. *)
Lemma order_by_not_implemented_witness :
  let w := Example.fetched in
  let builder := NaivePageBuilder (T:=Z) "Result is: " in
  let asked_quality := Filters.EVEN in
  let asked_ordering := Sorting.FROM_LOWEST in
  let quality_t := Some Filters.new in
  order_by builder = ABCPageBuilder_order_by
  ∧ (∀ l o h, order_by builder l o h = (h, Return NotImplemented))
  ∧ (∀ builder' h1 h2 (filtered_lines : loc) r,
       filter_lines_by_quality Example.ANY_QUALITY (lines (fetcher w)) asked_quality
         quality_t (heap w) = (h1, Return filtered_lines) →
       asked_ordering ≠ Example.ANY_ORDERING →
       order_by builder' filtered_lines asked_ordering h1 = (h2, Return r) →
       build_page_book Example.ANY_QUALITY Example.ANY_ORDERING Example.settings
         asked_quality asked_ordering builder' quality_t w
       = build_pages Example.settings builder'
           match r with
           | NotImplemented => filtered_lines
           | Lines ordered_lines => ordered_lines
           end
           (with_heap w h2))
  ∧ (∀ h1 (filtered_lines : loc),
       filter_lines_by_quality Example.ANY_QUALITY (lines (fetcher w)) asked_quality
         quality_t (heap w) = (h1, Return filtered_lines) →
       build_page_book Example.ANY_QUALITY Example.ANY_ORDERING Example.settings
         asked_quality asked_ordering builder quality_t w
       = build_pages Example.settings builder filtered_lines (with_heap w h1))
  ∧ build_page_book Example.ANY_QUALITY Example.ANY_ORDERING Example.settings
      asked_quality asked_ordering builder quality_t w
    = build_page_book Example.ANY_QUALITY Example.ANY_ORDERING Example.settings
        asked_quality Example.ANY_ORDERING builder quality_t w.
Proof.
  assert (order_by (NaivePageBuilder (T:=Z) "Result is: ") = ABCPageBuilder_order_by)
    as Hdefault by reflexivity.
  split; [exact Hdefault|].
  exact (order_by_not_implemented Example.ANY_QUALITY Example.ANY_ORDERING
           Example.settings Filters.EVEN Sorting.FROM_LOWEST
           (NaivePageBuilder "Result is: ") (Some Filters.new) Example.fetched Hdefault).
Defined.

(** The page book of that call: the one even record, and an average of
    one record a page. *)
Example build_page_book_naive :
  let built := build_page_book Example.ANY_QUALITY Example.ANY_ORDERING Example.settings
                 Filters.EVEN Sorting.FROM_LOWEST (NaivePageBuilder "Result is: ")
                 (Some Filters.new) Example.fetched in
  built.2 = Return [{| page_text := "Result is: " +:+ newline +:+ "2" |}]
  ∧ _average_page_size (fetcher built.1) = 1
  ∧ fetched_pages built.1 = Some 3.
Proof. by vm_compute. Qed.

(** [fetch_all_diverges] with a bound of 1 on the source of the example. *)
Lemma fetch_all_diverges_witness :
  let w := Example.started 1 in
  incremental_fetching_step (fetcher w) ≤ 1
  ∧ _iter_is_alive (fetcher w) = true
  ∧ fetch_more filtering_fetcher w = (w, Return ())
  ∧ (∀ n, Nat.iter n (fun w => (fetch_more filtering_fetcher w).1) w = w)
  ∧ ∀ fuel, fetch_all filtering_fetcher fuel w = None.
Proof.
  assert (incremental_fetching_step (fetcher (Example.started 1)) ≤ 1) as Hstep
    by (vm_compute; discriminate).
  assert (_iter_is_alive (fetcher (Example.started 1)) = true) as Halive by reflexivity.
  split; [exact Hstep|]. split; [exact Halive|].
  exact (fetch_all_diverges filtering_fetcher (Example.started 1) Hstep Halive).
Defined.

(** The buffer does not only grow under every builder: with no flag type
    the filter returns the buffer of the fetcher itself, the [order_by]
    of this builder cuts the list it is handed down to its first record,
    and after [build_page_book] the buffer has lost two of its three
    records. *)
Lemma build_page_book_shrinks_buffer :
  let w := Example.fetched in
  let builder := TopPageBuilder "Result is: " in
  let w' := (build_page_book Example.ANY_QUALITY Example.ANY_ORDERING Example.settings
               Filters.UNEVEN Sorting.FROM_HIGHEST builder None w).1 in
  run_calls filtering_fetcher Example.ANY_QUALITY Example.ANY_ORDERING Example.settings
    [BuildPageBook Filters.UNEVEN Sorting.FROM_HIGHEST builder None] w = Some w'
  ∧ buffer w = [mkLine "1" 4 1; mkLine "2" 2 2; mkLine "3" 4 3]
  ∧ buffer w' = [mkLine "1" 4 1]
  ∧ ¬ buffer w `prefix_of` buffer w'.
Proof.
  split; [reflexivity|]. split; [by vm_compute|]. split; [by vm_compute|].
  intros Hprefix%prefix_length. vm_compute in Hprefix. lia.
Qed.

(** [fetcher_invariants] over a source of five records: a batch, a page
    book of everything by the builder of the example, a page book of
    the even records by the builder that sorts in place, the rest of
    the source, and one more [fetch_more] on the exhausted fetcher. *)
Lemma fetcher_invariants_witness :
  let w := Example.short in
  let cs := [FetchMore;
             BuildPageBook Example.ANY_QUALITY Sorting.FROM_HIGHEST
               (SortingPageBuilder "Result is: ") (Some Filters.new);
             BuildPageBook Filters.EVEN Sorting.FROM_HIGHEST
               (InPlaceSortingPageBuilder "Result is: ") (Some Filters.new);
             FetchAll 10;
             FetchMore] in
  let run := run_calls scripted_anext Example.ANY_QUALITY Example.ANY_ORDERING
               Example.settings cs w in
  let w' := default w run in
  run = Some w'
  ∧ (lines (fetcher w) ∈ dom (heap w))
  ∧ calls_spare_buffer scripted_anext Example.ANY_QUALITY Example.ANY_ORDERING
      Example.settings cs w
  ∧ (_iter_is_alive (fetcher w) = false → _iter_is_alive (fetcher w') = false)
  ∧ (all_fetched w' = true → fetch_more scripted_anext w' = (w', Return ()))
  ∧ buffer w `prefix_of` buffer w'
  ∧ all_fetched w' = true
  ∧ length (buffer w') = 5%nat.
Proof.
  pose (w := Example.short).
  pose (cs := [FetchMore;
               BuildPageBook Example.ANY_QUALITY Sorting.FROM_HIGHEST
                 (SortingPageBuilder "Result is: ") (Some Filters.new);
               BuildPageBook Filters.EVEN Sorting.FROM_HIGHEST
                 (InPlaceSortingPageBuilder "Result is: ") (Some Filters.new);
               FetchAll 10;
               FetchMore] : list (call Z)).
  pose (w' := default w (run_calls scripted_anext Example.ANY_QUALITY
                           Example.ANY_ORDERING Example.settings cs w)).
  assert (run_calls scripted_anext Example.ANY_QUALITY Example.ANY_ORDERING
            Example.settings cs w = Some w') as Hrun by (by vm_compute).
  assert (lines (fetcher w) ∈ dom (heap w)) as Hdom.
  { apply elem_of_dom. eexists. reflexivity. }
  assert (calls_spare_buffer scripted_anext Example.ANY_QUALITY Example.ANY_ORDERING
            Example.settings cs w) as Hok.
  { apply calls_spare_buffer_intro; [exact Hdom|].
    constructor; [done|]. constructor; [|constructor; [|by repeat constructor]].
    - intros w0 _. apply preserves_spares_buffer.
      + apply SortingPageBuilder_order_by_local.
      + apply SortingPageBuilder_order_by_preserves.
      + apply chunked_settings_local.
      + apply chunked_settings_preserves.
      + exact (build_page_reads_preserves _ _
                 (SortingPageBuilder_build_page_reads "Result is: ")).
    - intros w0 _. apply real_filter_spares_buffer.
      + vm_compute. discriminate.
      + discriminate.
      + apply InPlaceSortingPageBuilder_order_by_local.
      + apply chunked_settings_local.
      + exact (build_page_preserves_local _ _
                 (build_page_reads_preserves _ _
                    (InPlaceSortingPageBuilder_build_page_reads "Result is: "))). }
  pose proof (fetcher_invariants scripted_anext Example.ANY_QUALITY Example.ANY_ORDERING
                Example.settings cs w w' Hrun) as (Halive & Hidem & Hgrows).
  split; [exact Hrun|]. split; [exact Hdom|]. split; [exact Hok|].
  split; [exact Halive|]. split; [exact Hidem|]. split; [exact (Hgrows Hdom Hok)|].
  clear. vm_compute. by split.
Defined.

(** ** More on the fetcher *)

Section MoreFetcherFacts.
Context {T S : Type} (anext : S → S * outcome (Line T)).
Implicit Types (w : world T S) (h : gmap loc (list (Line T))) (xs : list (Line T)).

Lemma appended_lookup_ne l l' xs h : l ≠ l' → appended l xs h !! l' = h !! l'.
Proof.
  intros Hne. revert h. induction xs as [|x xs IH]; intros h; simpl; [done|].
  by rewrite IH, lookup_insert_ne.
Qed.

Lemma pull_length n s : (length (pull anext n s).1.1 ≤ n)%nat.
Proof.
  revert s. induction n as [|n IH]; intros s; simpl; [done|].
  destruct (anext s) as [s' [x|e]]; simpl; [|lia].
  specialize (IH s'). destruct (pull anext n s') as [[xs s''] e]. simpl in *. lia.
Qed.

Lemma pull_again n s : (pull anext (length (pull anext n s).1.1) s).1.1 = (pull anext n s).1.1.
Proof.
  revert s. induction n as [|n IH]; intros s; simpl; [done|].
  destruct (anext s) as [s' [x|e]] eqn:Hs; simpl; [|done].
  specialize (IH s'). destruct (pull anext n s') as [[xs s''] e]. simpl in *.
  rewrite Hs. destruct (pull anext (length xs) s') as [[xs' s3] e']. simpl in *.
  by rewrite IH.
Qed.

Lemma pull_full n s : (pull anext n s).2 = None → length (pull anext n s).1.1 = n.
Proof.
  revert s. induction n as [|n IH]; intros s; simpl; [done|].
  destruct (anext s) as [s' [x|e]]; simpl; [|done].
  specialize (IH s'). destruct (pull anext n s') as [[xs s''] e]. simpl in *.
  intros He. by rewrite IH.
Qed.

(** X1.  One [fetch_more] on a live fetcher is [max 0 (step - 1)] pulls
    on the source, cut short by the first pull that raises: the records
    those pulls yield are appended to the end of the buffer, all of them
    and in order, nothing else is, and the source is left where those
    pulls left it.  So the buffer gets at most [max 0 (step - 1)]
    records, and fewer only when a pull raised.  On a fetcher that is
    not alive nothing is appended and the source is not pulled. *)
Theorem fetch_more_appends_next_records w :
  let step := incremental_fetching_step (fetcher w) in
  let w' := (fetch_more anext w).1 in
  let pulled := pull anext (Z.to_nat (step - 1)) (_iter (fetcher w)) in
  if _iter_is_alive (fetcher w) then
    buffer w' = buffer w ++ pulled.1.1
    ∧ _iter (fetcher w') = pulled.1.2
    ∧ Z.of_nat (length pulled.1.1) ≤ Z.max 0 (step - 1)
    ∧ (pulled.2 = None → Z.of_nat (length pulled.1.1) = Z.max 0 (step - 1))
  else buffer w' = buffer w ∧ _iter (fetcher w') = _iter (fetcher w).
Proof.
  simpl. rewrite fetch_more_spec.
  destruct (_iter_is_alive (fetcher w)); [|done].
  pose proof (pull_length (Z.to_nat (incremental_fetching_step (fetcher w) - 1))
                (_iter (fetcher w))) as Hlen.
  pose proof (pull_full (Z.to_nat (incremental_fetching_step (fetcher w) - 1))
                (_iter (fetcher w))) as Hfull.
  destruct (pull anext _ _) as [[xs s] e] eqn:Hp. simpl in *.
  unfold buffer. simpl. rewrite appended_lookup_total.
  split; [done|]. split; [done|]. split; [lia|]. intros He. rewrite (Hfull He). lia.
Qed.

(** X2.  [fetch_more] leaves the batch bound, the stored average and
    every other list of the store alone, keeps the same list object as
    buffer, never sets the alive flag, and changes nothing at all on a
    fetcher that is not alive. *)
Theorem fetch_more_frame w :
  let w' := (fetch_more anext w).1 in
  lines (fetcher w') = lines (fetcher w)
  ∧ incremental_fetching_step (fetcher w') = incremental_fetching_step (fetcher w)
  ∧ _average_page_size (fetcher w') = _average_page_size (fetcher w)
  ∧ (∀ l, l ≠ lines (fetcher w) → heap w' !! l = heap w !! l)
  ∧ (_iter_is_alive (fetcher w') = true → _iter_is_alive (fetcher w) = true)
  ∧ (_iter_is_alive (fetcher w) = false → fetch_more anext w = (w, Return ())).
Proof.
  simpl. rewrite fetch_more_spec.
  destruct (_iter_is_alive (fetcher w)) eqn:Halive.
  2:{ simpl. rewrite Halive. by repeat split. }
  destruct (pull anext _ _) as [[xs s] e]. simpl.
  repeat split; try done.
  intros l Hl. by apply appended_lookup_ne.
Qed.

Lemma fetch_more_outcome w :
  let after := fetch_more anext w in
  after.2 = Return ()
  ∨ ∃ name, after.2 = Raise (OtherException name)
            ∧ _iter_is_alive (fetcher after.1) = true.
Proof.
  simpl. rewrite fetch_more_spec.
  destruct (_iter_is_alive (fetcher w)) eqn:Halive; [|by left].
  destruct (pull anext _ _) as [[xs s] [e|]]; simpl; [|by left].
  destruct e as [|m|name]; simpl; [by left|by left|]. right. by exists name.
Qed.

(** X3.  When [fetch_all] returns, it either returns normally with the
    alive flag cleared, or hands on an exception that is neither a
    [StopAsyncIteration] nor a [RuntimeError], with the flag still set;
    on a fetcher that is not alive it changes nothing. *)
Theorem fetch_all_returns fuel w w' r :
  fetch_all anext fuel w = Some (w', r) →
  ((r = Return () ∧ all_fetched w' = true)
   ∨ ∃ name, r = Raise (OtherException name) ∧ all_fetched w' = false)
  ∧ (_iter_is_alive (fetcher w) = false → w' = w).
Proof.
  revert w. induction fuel as [|fuel IH]; intros w Hrun; simpl in Hrun;
    destruct (_iter_is_alive (fetcher w)) eqn:Halive; simpl in Hrun; simplify_eq.
  - split; [|done]. left. unfold all_fetched. by rewrite Halive.
  - split; [|done].
    pose proof (fetch_more_outcome w) as Hout. simpl in Hout.
    destruct (fetch_more anext w) as [w1 [[]|e]]; simpl in *.
    + exact (proj1 (IH _ Hrun)).
    + simplify_eq. destruct Hout as [?|(name & ? & Ha)]; [done|]. simplify_eq.
      right. exists name. unfold all_fetched. by rewrite Ha.
  - split; [|done]. left. unfold all_fetched. by rewrite Halive.
Qed.
Lemma drains_pull k s xs :
  drains anext s xs →
  if decide (k ≤ length xs)%nat
  then ∃ s', pull anext k s = (take k xs, s', None) ∧ drains anext s' (drop k xs)
  else ∃ s' e, pull anext k s = (xs, s', Some e) ∧ caught e = true.
Proof.
  revert s xs. induction k as [|k IH]; intros s xs Hd.
  - destruct (decide _) as [_|?]; [|lia]. exists s. by rewrite take_0, drop_0.
  - destruct Hd as (s' & e & Hp & He). destruct xs as [|x xs].
    + destruct (decide _) as [?|_]; [simpl in *; lia|]. simpl in *.
      destruct (anext s) as [s1 [x|e1]]; [|simplify_eq; eauto].
      destruct (pull anext 0 s1) as [[ys s2] e2]. simplify_eq.
    + change (pull anext (Datatypes.S (length (x :: xs))) s)
        with (match anext s with
              | (s1, Return x1) =>
                  let '(ys, s2, e2) := pull anext (Datatypes.S (length xs)) s1 in
                  (x1 :: ys, s2, e2)
              | (s1, Raise e1) => ([], s1, Some e1)
              end) in Hp.
      change (pull anext (Datatypes.S k) s)
        with (match anext s with
              | (s1, Return x1) =>
                  let '(ys, s2, e2) := pull anext k s1 in (x1 :: ys, s2, e2)
              | (s1, Raise e1) => ([], s1, Some e1)
              end).
      destruct (anext s) as [s1 [x1|e1]]; [|simplify_eq].
      destruct (pull anext (Datatypes.S (length xs)) s1) as [[ys s2] e2] eqn:Hp1.
      simplify_eq.
      assert (drains anext s1 xs) as Hd1 by (exists s', e; by rewrite Hp1).
      specialize (IH s1 xs Hd1).
      destruct (decide (k ≤ length xs)%nat) as [Hle|Hgt].
      * destruct (decide _) as [_|?]; [|simpl in *; lia]. destruct IH as (s3 & Hpk & Hd3).
        exists s3. by rewrite Hpk.
      * destruct (decide _) as [?|_]; [simpl in *; lia|]. destruct IH as (s3 & e3 & Hpk & He3).
        exists s3, e3. by rewrite Hpk.
Qed.

Lemma fetch_all_finite fuel w xs :
  _iter_is_alive (fetcher w) = true →
  2 ≤ incremental_fetching_step (fetcher w) →
  drains anext (_iter (fetcher w)) xs →
  (length xs / Z.to_nat (incremental_fetching_step (fetcher w) - 1) < fuel)%nat →
  ∃ w', fetch_all anext fuel w = Some (w', Return ())
        ∧ buffer w' = buffer w ++ xs
        ∧ all_fetched w' = true.
Proof.
  revert w xs. induction fuel as [|fuel IH]; intros w xs Halive Hstep Hd Hfuel; [lia|].
  simpl. rewrite Halive. simpl. rewrite fetch_more_spec, Halive.
  set (k := Z.to_nat (incremental_fetching_step (fetcher w) - 1)) in *.
  assert (1 ≤ k)%nat as Hk by lia.
  pose proof (drains_pull k _ _ Hd) as Hpull.
  destruct (decide (k ≤ length xs)%nat) as [Hle|Hgt].
  - destruct Hpull as (s' & -> & Hd'). simpl.
    set (w1 := {| heap := _; fetcher := _ |}).
    destruct (IH w1 (drop k xs)) as (w' & Hrun & Hbuf & Hall); try done.
    + rewrite length_drop. change (incremental_fetching_step (fetcher w1))
        with (incremental_fetching_step (fetcher w)). fold k.
      assert (length xs = (length xs - k) + 1 * k)%nat as Hsplit by lia.
      rewrite Hsplit, Nat.div_add in Hfuel by lia. lia.
    + exists w'. split; [done|]. split; [|done].
      rewrite Hbuf. unfold buffer, w1. simpl.
      by rewrite appended_lookup_total, <- app_assoc, take_drop.
  - destruct Hpull as (s' & e & -> & He). simpl. rewrite He.
    eexists. split; [by destruct fuel|]. unfold buffer, all_fetched. simpl.
    by rewrite appended_lookup_total.
Qed.

(** X4.  On a live fetcher with a batch bound of at least 2, over a
    finite source that has the records [xs] left, [fetch_all] returns
    normally once it is given more than [len xs // (step - 1)] turns,
    with every record of [xs] appended to the buffer in order and the
    fetcher marked as fully fetched. *)
Theorem fetch_all_drains fuel w xs :
  _iter_is_alive (fetcher w) = true →
  2 ≤ incremental_fetching_step (fetcher w) →
  drains anext (_iter (fetcher w)) xs →
  (length xs / Z.to_nat (incremental_fetching_step (fetcher w) - 1) < fuel)%nat →
  ∃ w', fetch_all anext fuel w = Some (w', Return ())
        ∧ buffer w' = buffer w ++ xs
        ∧ all_fetched w' = true.
Proof. apply fetch_all_finite. Qed.

Lemma fetch_more_average w :
  _average_page_size (fetcher (fetch_more anext w).1) = _average_page_size (fetcher w).
Proof.
  rewrite fetch_more_spec. destruct (_iter_is_alive (fetcher w)); [|done].
  by destruct (pull anext _ _) as [[xs s] e].
Qed.

Lemma fetch_all_average fuel w w' r :
  fetch_all anext fuel w = Some (w', r) →
  _average_page_size (fetcher w') = _average_page_size (fetcher w).
Proof.
  revert w. induction fuel as [|fuel IH]; intros w Hrun; simpl in Hrun;
    destruct (_iter_is_alive (fetcher w)); simpl in Hrun; simplify_eq; try done.
  pose proof (fetch_more_average w) as Havg.
  destruct (fetch_more anext w) as [w1 [[]|e]]; simpl in *; simplify_eq; [|done].
  rewrite <- Havg. by apply IH.
Qed.

(** X5.  Fetching never touches the stored average: over any sequence of
    [fetch_more] and [fetch_all] calls it stays what it was, so a fetcher
    that has no average yet still reports no [fetched_pages] however
    much it has fetched. *)
Theorem fetching_keeps_average ANY_QUALITY ANY_ORDERING settings cs w w' :
  run_calls anext ANY_QUALITY ANY_ORDERING settings cs w = Some w' →
  Forall is_fetch cs →
  _average_page_size (fetcher w') = _average_page_size (fetcher w)
  ∧ (_average_page_size (fetcher w) = 0 → fetched_pages w' = None).
Proof.
  intros Hrun Hcs.
  assert (_average_page_size (fetcher w') = _average_page_size (fetcher w)) as Havg.
  { revert w Hrun. induction Hcs as [|c cs Hc Hcs IH]; intros w Hrun; simpl in Hrun.
    - by simplify_eq.
    - destruct (run_call _ _ _ _ c w) as [w1|] eqn:Hc1; [|done].
      rewrite (IH w1 Hrun). destruct c as [|fuel|]; simpl in *; [| |done].
      + simplify_eq. apply fetch_more_average.
      + destruct (fetch_all anext fuel w) as [[w2 r]|] eqn:Hall; simplify_eq/=.
        by eapply fetch_all_average. }
  split; [done|]. intros Hz. unfold fetched_pages. by rewrite Havg, Hz.
Qed.

(** X6.  With a positive stored average, [fetched_pages] is the number
    [p] of pages of that size the buffer fills: [(p - 1) * average <
    len(lines) <= p * average]; it is 0 exactly when the buffer is
    empty. *)
Theorem fetched_pages_bounds w :
  0 < _average_page_size (fetcher w) →
  ∃ p, fetched_pages w = Some p
       ∧ (p - 1) * _average_page_size (fetcher w) < Z.of_nat (length (buffer w))
       ∧ Z.of_nat (length (buffer w)) ≤ p * _average_page_size (fetcher w)
       ∧ (p = 0 ↔ buffer w = []).
Proof.
  intros Hpos. unfold fetched_pages, buffer.
  set (len := Z.of_nat (length _)). set (average := _average_page_size _) in *.
  assert (0 ≤ len) as Hlen by (unfold len; lia).
  destruct (Z.eqb_spec average 0) as [?|_]; [lia|].
  eexists. split; [done|].
  pose proof (Z.div_mod len average ltac:(lia)) as Hdm.
  pose proof (Z.mod_pos_bound len average Hpos) as Hmod.
  assert (len = 0 ↔ heap w !!! lines (fetcher w) = []) as Hnil.
  { unfold len. rewrite <- length_zero_iff_nil. lia. }
  rewrite <- Hnil.
  destruct (Z.eqb_spec (len mod average) 0) as [Hz|Hnz]; simpl.
  - repeat split; nia.
  - assert (0 ≤ len / average) by (apply Z.div_pos; lia).
    repeat split; nia.
Qed.
End MoreFetcherFacts.

(** ** The source of the example *)

Lemma Fetcher_init_buffer {T S} (step : Z) (iter : S) (h : gmap loc (list (Line T))) :
  buffer (Fetcher_init step iter h) = [].
Proof. unfold buffer, Fetcher_init. simpl. by rewrite lookup_total_insert_eq. Qed.

Lemma filtering_fetcher_drains (n : nat) (i : Z) :
  i + Z.of_nat n = 10000 →
  drains filtering_fetcher i (filtering_record <$> seqZ i (Z.of_nat n)).
Proof.
  revert i. induction n as [|n IH]; intros i Hi.
  - exists i, StopAsyncIteration. simpl. unfold filtering_fetcher.
    destruct (Z.ltb_spec i 10000); [lia|done].
  - rewrite seqZ_cons by lia. rewrite fmap_cons.
    replace (Z.pred (Z.of_nat (Datatypes.S n))) with (Z.of_nat n) by lia.
    destruct (IH (Z.succ i)) as (s' & e & Hp & He); [lia|].
    exists s', e. split; [|done].
    set (rest := filtering_record <$> seqZ (Z.succ i) (Z.of_nat n)) in *.
    change (length (filtering_record i :: rest)) with (Datatypes.S (length rest)).
    change (pull filtering_fetcher (Datatypes.S (Datatypes.S (length rest))) i)
      with (match filtering_fetcher i with
            | (s1, Return x1) =>
                let '(ys, s2, e2) := pull filtering_fetcher (Datatypes.S (length rest)) s1 in
                (x1 :: ys, s2, e2)
            | (s1, Raise e1) => ([], s1, Some e1)
            end).
    unfold filtering_fetcher at 1. destruct (Z.ltb_spec i 10000); [|lia].
    replace (i + 1) with (Z.succ i) by lia. by rewrite Hp.
Qed.

(** X7.  A fetcher with a batch bound of at least 2 over the
    [filtering_fetcher] of the example, given more than
    [9999 // (step - 1)] turns, ends [fetch_all] normally with exactly
    the records for 1 to 9999 in its buffer, in ascending order, and
    reports itself fully fetched. *)
Theorem fetch_all_filtering_fetcher (step : Z) (fuel : nat) (h : gmap loc (list (Line Z))) :
  2 ≤ step →
  9999 / (step - 1) < Z.of_nat fuel →
  ∃ w', fetch_all filtering_fetcher fuel (Fetcher_init step 1 h) = Some (w', Return ())
        ∧ buffer w' = filtering_record <$> seqZ 1 9999
        ∧ all_fetched w' = true.
Proof.
  intros Hstep Hfuel.
  destruct (fetch_all_finite filtering_fetcher fuel (Fetcher_init step 1 h)
              (filtering_record <$> seqZ 1 9999)) as (w' & Hrun & Hbuf & Hall);
    try done.
  - apply (filtering_fetcher_drains (Z.to_nat 9999) 1). lia.
  - rewrite length_fmap, length_seqZ. simpl incremental_fetching_step.
    rewrite <- Z2Nat.inj_div by lia.
    apply Nat2Z.inj_lt. rewrite Z2Nat.id; [done|]. apply Z.div_pos; lia.
  - exists w'. split; [done|]. split; [|done].
    rewrite Hbuf. by rewrite (Fetcher_init_buffer step 1 h).
Qed.

(** [fetch_all_filtering_fetcher] with a bound of 100 and 102 turns. *)
Lemma fetch_all_filtering_fetcher_witness :
  2 ≤ 100
  ∧ 9999 / (100 - 1) < Z.of_nat 102
  ∧ ∃ w', fetch_all filtering_fetcher 102 (Fetcher_init 100 1 ∅) = Some (w', Return ())
          ∧ buffer w' = filtering_record <$> seqZ 1 9999
          ∧ all_fetched w' = true.
Proof.
  assert (2 ≤ 100) as Hstep by lia.
  assert (9999 / (100 - 1) < Z.of_nat 102) as Hfuel by (by vm_compute).
  split; [exact Hstep|]. split; [exact Hfuel|].
  exact (fetch_all_filtering_fetcher 100 102 ∅ Hstep Hfuel).
Defined.

(** ** More on the quality filter *)

Section MoreFilterFacts.
Context {T : Type}.
Variable ANY_QUALITY : Z.
Implicit Types (h : gmap loc (list (Line T))) (xs ys : list (Line T)).
Implicit Types (quality_t : option FLAG_T).

Lemma filter_result_view h (lines : loc) asked_quality quality_t :
  filter_result ANY_QUALITY h lines asked_quality quality_t
  = filter_view ANY_QUALITY asked_quality quality_t (h !!! lines).
Proof.
  unfold filter_result, filter_view.
  destruct (Z.eqb_spec asked_quality ANY_QUALITY) as [->|Hne].
  - by rewrite filter_lines_by_quality_any.
  - destruct quality_t as [t|].
    + rewrite filter_lines_by_quality_selects by done.
      by rewrite lookup_total_insert_eq.
    + by rewrite filter_lines_by_quality_no_type.
Qed.

Lemma filter_view_app asked_quality quality_t xs ys :
  filter_view ANY_QUALITY asked_quality quality_t (xs ++ ys)
  = filter_view ANY_QUALITY asked_quality quality_t xs
    ++ filter_view ANY_QUALITY asked_quality quality_t ys.
Proof.
  unfold filter_view. destruct (asked_quality =? ANY_QUALITY); [done|].
  destruct quality_t; [|done]. apply List.filter_app.
Qed.

Lemma filter_view_idemp asked_quality quality_t xs :
  filter_view ANY_QUALITY asked_quality quality_t
    (filter_view ANY_QUALITY asked_quality quality_t xs)
  = filter_view ANY_QUALITY asked_quality quality_t xs.
Proof.
  unfold filter_view. destruct (asked_quality =? ANY_QUALITY); [done|].
  destruct quality_t as [t|]; [|done].
  induction xs as [|x xs IH]; simpl; [done|].
  destruct (qualifiesb t asked_quality x) eqn:Hx; simpl; [|done].
  by rewrite Hx, IH.
Qed.

(** X8.  Filtering distributes over concatenation: on a buffer that
    holds [xs] followed by [ys] the filter returns what it returns on
    [xs] followed by what it returns on [ys].  Records fetched later
    only add to the end of the filtered list. *)
Theorem filter_lines_by_quality_app h (lines : loc) asked_quality quality_t xs ys :
  filter_result ANY_QUALITY (<[lines := xs ++ ys]> h) lines asked_quality quality_t
  = filter_result ANY_QUALITY (<[lines := xs]> h) lines asked_quality quality_t
    ++ filter_result ANY_QUALITY (<[lines := ys]> h) lines asked_quality quality_t.
Proof.
  rewrite !filter_result_view, !lookup_total_insert_eq. apply filter_view_app.
Qed.

(** X9.  An asked quality that the flag type refuses to construct is no
    error: the filter returns normally, with a new list that holds no
    record. *)
Theorem filter_lines_by_quality_invalid_asked h (lines : loc) asked_quality (t : FLAG_T) :
  asked_quality ≠ ANY_QUALITY →
  t asked_quality = None →
  ∃ result : loc,
    filter_lines_by_quality ANY_QUALITY lines asked_quality (Some t) h
    = (<[result := []]> h, Return result)
    ∧ (result ∉ dom h).
Proof.
  intros Hne Hinvalid. exists (fresh (dom h)). split; [|apply is_fresh].
  rewrite filter_lines_by_quality_selects by done. do 2 f_equal.
  induction (h !!! lines) as [|x xs IH]; simpl; [done|].
  unfold qualifiesb at 1. by rewrite Hinvalid.
Qed.

(** X10.  Filtering is idempotent: filtering the list the filter
    returned, with the same asked quality and flag type, returns the
    same records. *)
Theorem filter_lines_by_quality_idempotent h (lines : loc) asked_quality quality_t :
  match filter_lines_by_quality ANY_QUALITY lines asked_quality quality_t h with
  | (h', Return result) =>
      filter_result ANY_QUALITY h' result asked_quality quality_t
      = filter_result ANY_QUALITY h lines asked_quality quality_t
  | (_, Raise _) => False
  end.
Proof.
  pose proof (filter_result_view h lines asked_quality quality_t) as Hview.
  unfold filter_result at 1 in Hview.
  destruct (filter_lines_by_quality _ _ _ _ _) as [h' [result|e]] eqn:Hrun.
  - rewrite !filter_result_view, Hview. apply filter_view_idemp.
  - unfold filter_lines_by_quality in Hrun.
    destruct (asked_quality =? ANY_QUALITY), quality_t; done.
Qed.
End MoreFilterFacts.

(** [filter_lines_by_quality_invalid_asked] with the quality 8, which
    [Filters] does not have. *)
Lemma filter_lines_by_quality_invalid_asked_witness :
  8 ≠ Example.ANY_QUALITY
  ∧ Filters.new 8 = None
  ∧ ∃ result : loc,
      filter_lines_by_quality Example.ANY_QUALITY 0%nat 8 (Some Filters.new)
        (heap Example.fetched)
      = (<[result := []]> (heap Example.fetched), Return result)
      ∧ (result ∉ dom (heap Example.fetched)).
Proof.
  assert (8 ≠ Example.ANY_QUALITY) as Hne by (vm_compute; discriminate).
  assert (Filters.new 8 = None) as Hinvalid by reflexivity.
  split; [exact Hne|]. split; [exact Hinvalid|].
  exact (filter_lines_by_quality_invalid_asked Example.ANY_QUALITY
           (heap Example.fetched) 0%nat 8 Filters.new Hne Hinvalid).
Defined.

(** X11.  On records of the example's source, filtering by [EVEN] keeps
    exactly the records of the even numbers and filtering by [UNEVEN]
    exactly those of the odd numbers, in the order they came. *)
Theorem filter_example_records (ANY_QUALITY : Z) (h : gmap loc (list (Line Z)))
    (lines : loc) (numbers : list Z) :
  Filters.EVEN ≠ ANY_QUALITY →
  Filters.UNEVEN ≠ ANY_QUALITY →
  h !!! lines = filtering_record <$> numbers →
  filter_result ANY_QUALITY h lines Filters.EVEN (Some Filters.new)
  = filtering_record <$> List.filter (fun i => i mod 2 =? 0) numbers
  ∧ filter_result ANY_QUALITY h lines Filters.UNEVEN (Some Filters.new)
    = filtering_record <$> List.filter (fun i => negb (i mod 2 =? 0)) numbers.
Proof.
  intros He%Z.eqb_neq Hu%Z.eqb_neq Hrecords.
  rewrite !filter_result_view, Hrecords. unfold filter_view. rewrite He, Hu.
  assert (∀ i, qualifiesb Filters.new Filters.EVEN (filtering_record i) = (i mod 2 =? 0))
    as Heven.
  { intros i. unfold qualifiesb, filtering_record. simpl. by destruct (i mod 2 =? 0). }
  assert (∀ i, qualifiesb Filters.new Filters.UNEVEN (filtering_record i)
               = negb (i mod 2 =? 0)) as Hodd.
  { intros i. unfold qualifiesb, filtering_record. simpl. by destruct (i mod 2 =? 0). }
  clear Hrecords.
  split; (induction numbers as [|i numbers IH]; [done|]);
    rewrite fmap_cons; simpl List.filter; rewrite ?Heven, ?Hodd;
    destruct (i mod 2 =? 0); simpl; by rewrite IH.
Qed.

(** [filter_example_records] on the three fetched records. *)
Lemma filter_example_records_witness :
  Filters.EVEN ≠ Example.ANY_QUALITY
  ∧ Filters.UNEVEN ≠ Example.ANY_QUALITY
  ∧ heap Example.fetched !!! 0%nat = filtering_record <$> [1; 2; 3]
  ∧ filter_result Example.ANY_QUALITY (heap Example.fetched) 0%nat Filters.EVEN
      (Some Filters.new)
    = filtering_record <$> List.filter (fun i => i mod 2 =? 0) [1; 2; 3]
  ∧ filter_result Example.ANY_QUALITY (heap Example.fetched) 0%nat Filters.UNEVEN
      (Some Filters.new)
    = filtering_record <$> List.filter (fun i => negb (i mod 2 =? 0)) [1; 2; 3].
Proof.
  assert (Filters.EVEN ≠ Example.ANY_QUALITY) as He by (vm_compute; discriminate).
  assert (Filters.UNEVEN ≠ Example.ANY_QUALITY) as Hu by (vm_compute; discriminate).
  assert (heap Example.fetched !!! 0%nat = filtering_record <$> [1; 2; 3]) as Hrecords
    by (by vm_compute).
  split; [exact He|]. split; [exact Hu|]. split; [exact Hrecords|].
  exact (filter_example_records Example.ANY_QUALITY (heap Example.fetched) 0%nat
           [1; 2; 3] He Hu Hrecords).
Defined.

(** ** More on the page builders *)

Section SortFacts.
Context {A : Type} (le : Z → Z → bool) (key : A → Z) (R : A → A → Prop).
Hypothesis le_R : ∀ a b, le (key a) (key b) = true → R a b.
Hypothesis le_total : ∀ a b, le (key a) (key b) = false → R b a.

Lemma insert_by_key_perm x l : insert_by_key le key x l ≡ₚ x :: l.
Proof.
  induction l as [|y l IH]; simpl; [done|].
  destruct (le (key x) (key y)); [done|]. rewrite IH. apply Permutation_swap.
Qed.

Lemma sort_by_key_perm l : sort_by_key le key l ≡ₚ l.
Proof.
  induction l as [|x l IH]; simpl; [done|].
  unfold sort_by_key in *. simpl. by rewrite insert_by_key_perm, IH.
Qed.

Lemma insert_by_key_sorted x l : Sorted R l → Sorted R (insert_by_key le key x l).
Proof.
  induction l as [|y l IH]; intros Hl; simpl.
  - by repeat constructor.
  - destruct (le (key x) (key y)) eqn:Hxy.
    + constructor; [done|]. constructor. by apply le_R.
    + apply Sorted_inv in Hl as [Hl Hy]. constructor; [by apply IH|].
      destruct l as [|z l]; simpl.
      * constructor. by apply le_total.
      * destruct (le (key x) (key z)); constructor.
        -- by apply le_total.
        -- by apply HdRel_inv in Hy.
Qed.

Lemma sort_by_key_sorted l : Sorted R (sort_by_key le key l).
Proof.
  induction l as [|x l IH]; [constructor|].
  unfold sort_by_key in *. simpl. by apply insert_by_key_sorted.
Qed.
End SortFacts.

Section MoreBuilderFacts.
Context {T : Type}.

Lemma newline_concat (t : string) (ts : list string) :
  newline +:+ String.concat newline (t :: ts)
  = foldr (fun t rest => newline +:+ t +:+ rest) "" (t :: ts).
Proof.
  revert t. induction ts as [|t' ts IH]; intros t.
  - simpl. by rewrite string_app_nil_r.
  - change (String.concat newline (t :: t' :: ts))
      with (t +:+ newline +:+ String.concat newline (t' :: ts)).
    change (foldr (fun t rest => newline +:+ t +:+ rest) "" (t :: t' :: ts))
      with (newline +:+ t +:+ foldr (fun t rest => newline +:+ t +:+ rest) "" (t' :: ts)).
    by rewrite <- IH.
Qed.

(** X12.  [NaivePageBuilder.build_page] never raises and writes to no
    list; it gives no page for an empty list, and for any other list a
    page whose text is the base text followed, for each record in
    order, by a newline and the text of the record.  [empty_page] is
    the base text alone: what that layout gives for no records. *)
Theorem NaivePageBuilder_layout (base_text : string) (lines : loc)
    (h : gmap loc (list (Line T))) :
  let layout := fun records =>
    base_text +:+ foldr (fun line rest => newline +:+ text line +:+ rest) "" records in
  build_page (NaivePageBuilder base_text) lines h
  = (h, Return match h !!! lines with
               | [] => None
               | records => Some {| page_text := layout records |}
               end)
  ∧ empty_page (NaivePageBuilder (T:=T) base_text) = Return {| page_text := layout [] |}.
Proof.
  simpl. split; [|by rewrite string_app_nil_r].
  unfold mbind, St_bind, read_list, gets. simpl.
  destruct (h !!! lines) as [|line records]; [done|].
  unfold mret, St_ret. do 4 f_equal. rewrite string_app_assoc. f_equal.
  change (text <$> line :: records) with (text line :: (text <$> records)).
  rewrite newline_concat.
  change (text line :: (text <$> records)) with (text <$> line :: records).
  assert (∀ rs : list (Line T),
            foldr (fun t rest => newline +:+ t +:+ rest) "" (text <$> rs)
            = foldr (fun line rest => newline +:+ text line +:+ rest) "" rs) as Hfold.
  { induction rs as [|l ls IH]; [done|]. rewrite fmap_cons. simpl foldr. by rewrite IH. }
  exact (Hfold (line :: records)).
Qed.

End MoreBuilderFacts.

(** X13.  The [order_by] of the example's builder never raises and never
    touches the list it is handed or any other list of the store: it
    returns a new list that holds the same records, from the highest
    [meta] to the lowest for [FROM_HIGHEST], from the lowest to the
    highest for [FROM_LOWEST], and in the order they had for any other
    ordering. *)
Theorem SortingPageBuilder_order_by (base_text : string) (h : gmap loc (list (Line Z)))
    (lines : loc) (asked_ordering : Z) :
  ∃ (ordered_lines : loc) (sorted : list (Line Z)),
    order_by (SortingPageBuilder base_text) lines asked_ordering h
    = (<[ordered_lines := sorted]> h, Return (Lines ordered_lines))
    ∧ (ordered_lines ∉ dom h)
    ∧ sorted ≡ₚ h !!! lines
    ∧ (asked_ordering = Sorting.FROM_HIGHEST →
       StronglySorted (fun a b => meta b ≤ meta a) sorted)
    ∧ (asked_ordering = Sorting.FROM_LOWEST →
       StronglySorted (fun a b => meta a ≤ meta b) sorted)
    ∧ (asked_ordering ≠ Sorting.FROM_HIGHEST → asked_ordering ≠ Sorting.FROM_LOWEST →
       sorted = h !!! lines).
Proof.
  exists (fresh (dom h)). simpl.
  unfold mbind, St_bind, read_list, alloc_list, write_list, gets, modify. simpl.
  destruct (Z.eqb_spec asked_ordering Sorting.FROM_HIGHEST) as [->|Hh]; simpl.
  - eexists. rewrite insert_insert_eq. split; [done|]. split; [apply is_fresh|].
    split; [apply sort_by_key_perm|]. split; [|done]. intros _.
    apply Sorted_StronglySorted; [intros a b c; lia|].
    apply sort_by_key_sorted; intros a b; lia.
  - destruct (Z.eqb_spec asked_ordering Sorting.FROM_LOWEST) as [->|Hl]; simpl.
    + eexists. rewrite insert_insert_eq. split; [done|]. split; [apply is_fresh|].
      split; [apply sort_by_key_perm|]. split; [done|]. split; [|done]. intros _.
      apply Sorted_StronglySorted; [intros a b c; lia|].
      apply sort_by_key_sorted; intros a b; lia.
    + eexists. split; [done|]. split; [apply is_fresh|]. by repeat split.
Qed.

(** ** More on the record manager *)

Section MoreManagerFacts.
Context {T S : Type}.
Variables ANY_QUALITY ANY_ORDERING : Z.
Variable settings : PaginatorSettings T.
Implicit Types (w : world T S) (h : gmap loc (list (Line T))).
Implicit Types (builder : ABCPageBuilder T) (quality_t : option FLAG_T).
Implicit Types (sizer : list (Line T) → outcome (list (list (Line T)))).
Implicit Types (render : list (Line T) → outcome (option Page)).

Lemma filter_lines_by_quality_returns h (lines : loc) asked_quality quality_t :
  ∃ h1 (filtered_lines : loc),
    filter_lines_by_quality ANY_QUALITY lines asked_quality quality_t h
    = (h1, Return filtered_lines)
    ∧ h ⊆ h1
    ∧ (lines ∈ dom h → filtered_lines ∈ dom h1)
    ∧ h1 !!! filtered_lines = filter_view ANY_QUALITY asked_quality quality_t (h !!! lines).
Proof.
  destruct (filter_lines_by_quality_store ANY_QUALITY h lines asked_quality quality_t)
    as (h1 & fl & Heq & Hsub).
  exists h1, fl. split; [done|]. split; [done|]. split.
  - destruct (filter_lines_by_quality_cases ANY_QUALITY h lines asked_quality quality_t)
      as [[Heq' _] | (t & result & _ & _ & _ & Heq')]; rewrite Heq' in Heq;
      simplify_eq; [done|].
    intros _. rewrite dom_insert. set_solver.
  - rewrite <- filter_result_view. unfold filter_result. by rewrite Heq.
Qed.

Lemma select_lines_plain asked_quality asked_ordering builder quality_t w :
  asked_ordering = ANY_ORDERING ∨ order_by builder = ABCPageBuilder_order_by →
  ∃ h1 (filtered_lines : loc),
    select_lines ANY_QUALITY ANY_ORDERING asked_quality asked_ordering builder quality_t w
    = (with_heap w h1, Return filtered_lines)
    ∧ heap w ⊆ h1
    ∧ (lines (fetcher w) ∈ dom (heap w) → filtered_lines ∈ dom h1)
    ∧ h1 !!! filtered_lines
      = filter_view ANY_QUALITY asked_quality quality_t (buffer w).
Proof.
  intros Hplain.
  destruct (filter_lines_by_quality_returns (heap w) (lines (fetcher w))
              asked_quality quality_t) as (h1 & fl & Heq & Hsub & Hdom & Hview).
  exists h1, fl. split; [|done]. rewrite select_lines_spec, Heq.
  destruct (Z.eqb_spec asked_ordering ANY_ORDERING) as [_|Hne]; [done|].
  destruct Hplain as [? | ->]; done.
Qed.

Lemma select_lines_preserves asked_quality asked_ordering builder quality_t w :
  (asked_ordering ≠ ANY_ORDERING → order_by_preserves builder) →
  heap w ⊆ heap (select_lines ANY_QUALITY ANY_ORDERING asked_quality asked_ordering
                   builder quality_t w).1.
Proof.
  intros Hp. rewrite select_lines_spec.
  destruct (filter_lines_by_quality_store ANY_QUALITY (heap w) (lines (fetcher w))
              asked_quality quality_t) as (h1 & fl & -> & Hsub).
  destruct (Z.eqb_spec asked_ordering ANY_ORDERING) as [_|Hne]; [done|].
  pose proof (Hp Hne fl asked_ordering h1) as Hsub2.
  destruct (order_by builder fl asked_ordering h1) as [h2 [[|l]|e]]; simpl in *;
    by etrans.
Qed.

Lemma build_each_preserves builder (chunks : list loc) h :
  build_page_preserves builder → h ⊆ (mapM (build_page builder) chunks h).1.
Proof.
  intros Hp. revert h. induction chunks as [|c chunks IH]; intros h; [done|].
  rewrite mapM_St_cons. pose proof (Hp c h) as Hstep.
  destruct (build_page builder c h) as [h1 [p|e]]; simpl in *; [|done].
  pose proof (IH h1) as Hrest.
  destruct (mapM (build_page builder) chunks h1) as [h2 [ps|e]]; simpl in *; by etrans.
Qed.

Lemma build_pages_preserves builder (filtered_lines : loc) w :
  page_sizer_preserves settings → build_page_preserves builder →
  heap w ⊆ heap (build_pages settings builder filtered_lines w).1.
Proof.
  intros Hsizer Hbuild. rewrite build_pages_spec.
  pose proof (Hsizer filtered_lines (heap w)) as Hsub.
  destruct (page_sizer_factory settings filtered_lines (heap w)) as [h2 [chunks|e]];
    simpl in *; [|done].
  pose proof (build_each_preserves builder chunks h2 Hbuild) as Hsub2.
  destruct (mapM (build_page builder) chunks h2) as [h3 [pages|e]]; simpl in *;
    [|by etrans].
  destruct (length (omap id pages) =? 0)%nat; simpl; by etrans.
Qed.

Lemma build_page_book_preserves asked_quality asked_ordering builder quality_t w :
  (asked_ordering ≠ ANY_ORDERING → order_by_preserves builder) →
  page_sizer_preserves settings → build_page_preserves builder →
  heap w ⊆ heap (build_page_book ANY_QUALITY ANY_ORDERING settings asked_quality
                   asked_ordering builder quality_t w).1.
Proof.
  intros Horder Hsizer Hbuild. rewrite build_page_book_select.
  pose proof (select_lines_preserves asked_quality asked_ordering builder quality_t w
                Horder) as Hsub.
  destruct (select_lines _ _ _ _ _ _ _) as [w1 [fl|e]]; simpl in *; [|done].
  etrans; [done|]. by apply build_pages_preserves.
Qed.

Lemma plain_order_by_preserves asked_ordering builder :
  asked_ordering = ANY_ORDERING ∨ order_by builder = ABCPageBuilder_order_by →
  asked_ordering ≠ ANY_ORDERING → order_by_preserves builder.
Proof.
  intros [?|Hdefault] Hne; [done|]. by apply ABCPageBuilder_order_by_preserves.
Qed.

Lemma build_page_book_preserves_buffer asked_quality asked_ordering builder quality_t w :
  (asked_ordering ≠ ANY_ORDERING → order_by_preserves builder) →
  page_sizer_preserves settings → build_page_preserves builder →
  lines (fetcher w) ∈ dom (heap w) →
  let w' := (build_page_book ANY_QUALITY ANY_ORDERING settings asked_quality
               asked_ordering builder quality_t w).1 in
  lines (fetcher w') ∈ dom (heap w') ∧ buffer w' = buffer w.
Proof.
  intros Horder Hsizer Hbuild [v Hv]%elem_of_dom. simpl.
  pose proof (build_page_book_preserves asked_quality asked_ordering builder quality_t w
                Horder Hsizer Hbuild) as Hsub.
  destruct (build_page_book_fetcher ANY_QUALITY ANY_ORDERING settings asked_quality
              asked_ordering builder quality_t w) as (Hlines & _).
  pose proof (lookup_weaken _ _ _ _ Hv Hsub) as Hv'.
  unfold buffer. rewrite Hlines. split; [apply elem_of_dom; eauto|].
  unfold lookup_total, map_lookup_total. by rewrite Hv, Hv'.
Qed.

Lemma mapM_outcome_cons {A B} (f : A → outcome B) (x : A) (l : list A) :
  mapM f (x :: l)
  = match f x with
    | Return y => match mapM f l with
                  | Return k => Return (y :: k)
                  | Raise e => Raise e
                  end
    | Raise e => Raise e
    end.
Proof. done. Qed.

Lemma build_each_reads builder render (chunks : list loc) h :
  build_page_reads builder render →
  Forall (fun selected_lines => selected_lines ∈ dom h) chunks →
  (mapM (build_page builder) chunks h).2
  = mapM render ((fun selected_lines => h !!! selected_lines) <$> chunks).
Proof.
  intros Hreads. revert h. induction chunks as [|c chunks IH]; intros h Hdom; [done|].
  apply Forall_cons in Hdom as [Hc Hdom].
  rewrite mapM_St_cons, fmap_cons, mapM_outcome_cons.
  destruct (Hreads c h) as [Hsub Hout].
  destruct (build_page builder c h) as [h1 [p|e]]; simpl in *; rewrite <- Hout; [|done].
  assert (Forall (fun selected_lines => selected_lines ∈ dom h1) chunks) as Hdom1.
  { eapply Forall_impl; [exact Hdom|]. intros l Hl. by apply (subseteq_dom h h1). }
  specialize (IH h1 Hdom1).
  assert ((fun selected_lines => h1 !!! selected_lines) <$> chunks
          = (fun selected_lines => h !!! selected_lines) <$> chunks) as Hsame.
  { apply Forall_fmap_ext. eapply Forall_impl; [exact Hdom|].
    intros l [v Hv]%elem_of_dom. unfold lookup_total, map_lookup_total.
    by rewrite Hv, (lookup_weaken _ _ _ _ Hv Hsub). }
  rewrite Hsame in IH.
  destruct (mapM (build_page builder) chunks h1) as [h2 [ps|e]]; simpl in *;
    by rewrite <- IH.
Qed.

Lemma build_pages_reads sizer render builder (filtered_lines : loc) w :
  page_sizer_reads settings sizer → build_page_reads builder render →
  filtered_lines ∈ dom (heap w) →
  (build_pages settings builder filtered_lines w).2
  = pages_of sizer render (heap w !!! filtered_lines).
Proof.
  intros Hsizer Hbuild Hdom. rewrite build_pages_spec.
  destruct (Hsizer filtered_lines (heap w)) as [Hsub Hout]. specialize (Hout Hdom).
  unfold pages_of. unfold mbind at 1, outcome_bind at 1.
  destruct (page_sizer_factory settings filtered_lines (heap w)) as [h2 [chunks|e]];
    destruct (sizer (heap w !!! filtered_lines)) as [cut|e'] eqn:Hcut; simpl in *;
    try done; [|by subst].
  destruct Hout as [Hin <-].
  rewrite <- (build_each_reads builder render chunks h2 Hbuild Hin).
  by destruct (mapM (build_page builder) chunks h2) as [h3 [pages|e]].
Qed.

Lemma build_pages_average builder (filtered_lines : loc) w page_book :
  page_sizer_preserves settings → build_page_preserves builder →
  filtered_lines ∈ dom (heap w) →
  (build_pages settings builder filtered_lines w).2 = Return page_book →
  page_book ≠ [] →
  _average_page_size (fetcher (build_pages settings builder filtered_lines w).1)
  = Z.of_nat (length (heap w !!! filtered_lines)) / Z.of_nat (length page_book).
Proof.
  intros Hsizer Hbuild [v Hv]%elem_of_dom.
  pose proof (build_pages_preserves builder filtered_lines w Hsizer Hbuild) as Hsub.
  revert Hsub. rewrite build_pages_spec.
  destruct (page_sizer_factory settings filtered_lines (heap w)) as [h2 [chunks|e]];
    [|done].
  destruct (mapM (build_page builder) chunks h2) as [h3 [pages|e]]; [|done].
  simpl. intros Hsub [= <-] Hne.
  destruct (omap id pages) as [|page pages'] eqn:Hpages; [done|]. simpl in *.
  unfold lookup_total, map_lookup_total.
  by rewrite Hv, (lookup_weaken _ _ _ _ Hv Hsub).
Qed.

Lemma build_page_book_plain sizer render asked_quality asked_ordering builder quality_t w :
  asked_ordering = ANY_ORDERING ∨ order_by builder = ABCPageBuilder_order_by →
  lines (fetcher w) ∈ dom (heap w) →
  page_sizer_reads settings sizer → build_page_reads builder render →
  (build_page_book ANY_QUALITY ANY_ORDERING settings asked_quality asked_ordering
     builder quality_t w).2
  = pages_of sizer render (filter_view ANY_QUALITY asked_quality quality_t (buffer w)).
Proof.
  intros Hplain Hdom Hsizer Hbuild.
  destruct (select_lines_plain asked_quality asked_ordering builder quality_t w Hplain)
    as (h1 & fl & Hsel & _ & Hfl & Hview).
  rewrite build_page_book_select, Hsel, <- Hview.
  apply (build_pages_reads sizer render); [done|done|]. by apply Hfl.
Qed.

Lemma build_page_book_plain_average asked_quality asked_ordering builder quality_t w
    page_book :
  asked_ordering = ANY_ORDERING ∨ order_by builder = ABCPageBuilder_order_by →
  lines (fetcher w) ∈ dom (heap w) →
  page_sizer_preserves settings → build_page_preserves builder →
  (build_page_book ANY_QUALITY ANY_ORDERING settings asked_quality asked_ordering
     builder quality_t w).2 = Return page_book →
  page_book ≠ [] →
  _average_page_size
    (fetcher (build_page_book ANY_QUALITY ANY_ORDERING settings asked_quality
                asked_ordering builder quality_t w).1)
  = Z.of_nat (length (filter_view ANY_QUALITY asked_quality quality_t (buffer w)))
    / Z.of_nat (length page_book).
Proof.
  intros Hplain Hdom Hsizer Hbuild.
  destruct (select_lines_plain asked_quality asked_ordering builder quality_t w Hplain)
    as (h1 & fl & Hsel & _ & Hfl & Hview).
  rewrite build_page_book_select, Hsel, <- Hview. intros Hbook Hne.
  by apply build_pages_average; [| |apply Hfl| |].
Qed.


(** X15.  Without custom ordering (the "any ordering" sentinel is asked,
    or the builder does not override [order_by]) and with a page sizer
    and a [build_page] that only read the lists they are handed, the
    outcome of [build_page_book] depends on the records of the buffer
    only: it is what chunking the filtered records, building a page for
    each chunk and dropping the absent pages gives or raises. *)
Theorem build_page_book_without_ordering sizer render asked_quality asked_ordering
    builder quality_t w :
  asked_ordering = ANY_ORDERING ∨ order_by builder = ABCPageBuilder_order_by →
  lines (fetcher w) ∈ dom (heap w) →
  page_sizer_reads settings sizer → build_page_reads builder render →
  (build_page_book ANY_QUALITY ANY_ORDERING settings asked_quality asked_ordering
     builder quality_t w).2
  = pages_of sizer render (filter_view ANY_QUALITY asked_quality quality_t (buffer w)).
Proof. apply build_page_book_plain. Qed.

(** X16.  Without custom ordering and with a page sizer and a
    [build_page] that only read the lists they are handed, building the
    page book again right away gives the same outcome as the first
    time: neither the new stored average nor the lists the first call
    left in the store change it, and the buffer is as it was. *)
Theorem build_page_book_repeatable sizer render asked_quality asked_ordering builder
    quality_t w :
  asked_ordering = ANY_ORDERING ∨ order_by builder = ABCPageBuilder_order_by →
  lines (fetcher w) ∈ dom (heap w) →
  page_sizer_reads settings sizer → build_page_reads builder render →
  let first := build_page_book ANY_QUALITY ANY_ORDERING settings asked_quality
                 asked_ordering builder quality_t w in
  let second := build_page_book ANY_QUALITY ANY_ORDERING settings asked_quality
                  asked_ordering builder quality_t first.1 in
  second.2 = first.2 ∧ buffer second.1 = buffer w.
Proof.
  intros Hplain Hdom Hsizer Hbuild. simpl.
  pose proof (plain_order_by_preserves asked_ordering builder Hplain) as Horder.
  pose proof (page_sizer_reads_preserves _ _ Hsizer) as Hsp.
  pose proof (build_page_reads_preserves _ _ Hbuild) as Hbp.
  destruct (build_page_book_preserves_buffer asked_quality asked_ordering builder
              quality_t w Horder Hsp Hbp Hdom) as (Hdom1 & Hbuf).
  destruct (build_page_book_preserves_buffer asked_quality asked_ordering builder
              quality_t _ Horder Hsp Hbp Hdom1) as (_ & Hbuf2).
  split; [|by rewrite Hbuf2].
  by rewrite !(build_page_book_plain sizer render), Hbuf.
Qed.

Lemma filter_view_length asked_quality quality_t (records : list (Line T)) :
  (length (filter_view ANY_QUALITY asked_quality quality_t records) ≤ length records)%nat.
Proof.
  unfold filter_view. destruct (asked_quality =? ANY_QUALITY); [done|].
  destruct quality_t; [|done]. apply List.filter_length_le.
Qed.

(** X17.  Without custom ordering and with a page sizer and a
    [build_page] that leave the lists that exist as they are, the
    forecast never falls short of the page book it was computed from:
    right after a call that returned a page book that is not empty,
    [fetched_pages], when it is there, is at least the number of pages
    of that book. *)
Theorem fetched_pages_covers_page_book asked_quality asked_ordering builder quality_t w
    page_book p :
  asked_ordering = ANY_ORDERING ∨ order_by builder = ABCPageBuilder_order_by →
  lines (fetcher w) ∈ dom (heap w) →
  page_sizer_preserves settings → build_page_preserves builder →
  let built := build_page_book ANY_QUALITY ANY_ORDERING settings asked_quality
                 asked_ordering builder quality_t w in
  built.2 = Return page_book →
  page_book ≠ [] →
  fetched_pages built.1 = Some p →
  Z.of_nat (length page_book) ≤ p.
Proof.
  intros Hplain Hdom Hsizer Hbuild. simpl. intros Hbook Hne Hpages.
  pose proof (build_page_book_plain_average asked_quality asked_ordering builder
                quality_t w page_book Hplain Hdom Hsizer Hbuild Hbook Hne) as Havg.
  destruct (build_page_book_preserves_buffer asked_quality asked_ordering builder
              quality_t w (plain_order_by_preserves _ _ Hplain) Hsizer Hbuild Hdom)
    as (_ & Hbuf).
  pose proof (filter_view_length asked_quality quality_t (buffer w)) as Hlen.
  unfold fetched_pages in Hpages. fold (buffer (build_page_book ANY_QUALITY ANY_ORDERING
    settings asked_quality asked_ordering builder quality_t w).1) in Hpages.
  rewrite Hbuf, Havg in Hpages.
  set (M := Z.of_nat (length (filter_view _ _ _ _))) in *.
  set (L := Z.of_nat (length (buffer w))) in *.
  set (N := Z.of_nat (length page_book)) in *.
  assert (0 < N) as HN by (unfold N; destruct page_book; simpl; [done|lia]).
  assert (0 ≤ M ≤ L) as HM by (unfold M, L; lia).
  destruct (Z.eqb_spec (M / N) 0) as [?|Hnz]; [done|]. simplify_eq.
  assert (0 ≤ M / N) by (apply Z.div_pos; lia).
  assert (N * (M / N) ≤ M) by (apply Z.mul_div_le; lia).
  assert (N ≤ L / (M / N)) by (apply Z.div_le_lower_bound; nia).
  destruct (negb _); lia.
Qed.

Lemma mapM_naive_render (base_text : string) (chunks : list (list (Line T))) :
  mapM (naive_render base_text) chunks
  = Return ((fun chunk => if nonempty chunk then Some (naive_page base_text chunk)
                          else None) <$> chunks).
Proof.
  induction chunks as [|chunk chunks IH]; [done|].
  by rewrite mapM_outcome_cons, IH.
Qed.

(** X18.  With [NaivePageBuilder] and a page sizer that only reads the
    list it is handed, [build_page_book] raises only what the page sizer
    raises, and otherwise returns one page for each chunk that is not
    empty, in chunk order, each with the base text and the texts of the
    records of its chunk; empty chunks leave no trace. *)
Theorem build_page_book_NaivePageBuilder sizer asked_quality asked_ordering quality_t w
    (base_text : string) :
  lines (fetcher w) ∈ dom (heap w) →
  page_sizer_reads settings sizer →
  (build_page_book ANY_QUALITY ANY_ORDERING settings asked_quality asked_ordering
     (NaivePageBuilder base_text) quality_t w).2
  = match sizer (filter_view ANY_QUALITY asked_quality quality_t (buffer w)) with
    | Return chunks => Return (naive_page base_text <$> List.filter nonempty chunks)
    | Raise e => Raise e
    end.
Proof.
  intros Hdom Hsizer.
  rewrite (build_page_book_plain sizer (naive_render base_text));
    [|by right|done|done|apply NaivePageBuilder_build_page_reads].
  unfold pages_of, mbind, outcome_bind.
  destruct (sizer _) as [chunks|e]; [|done].
  rewrite mapM_naive_render. f_equal.
  induction chunks as [|chunk chunks IH]; [done|].
  rewrite fmap_cons. simpl List.filter.
  destruct chunk; simpl nonempty; cbv iota; [exact IH|].
  rewrite fmap_cons, <- IH. done.
Qed.

Lemma FormattingPageBuilder_build_page_reads
    (format : string → string → string → outcome string)
    (base_text name : string) (empty_text : option string) :
  build_page_reads (FormattingPageBuilder (T:=T) format base_text name empty_text)
    (formatting_render format base_text name).
Proof.
  intros l h. simpl.
  cbv beta iota delta [mbind St_bind outcome_bind read_list gets lift_outcome
                       formatting_render].
  destruct (h !!! l) as [|line contents]; [done|].
  by destruct (format base_text name _) as [t|e].
Qed.

Lemma mapM_formatting_render (format : string → string → string → outcome string)
    (base_text name : string) (chunks : list (list (Line T))) :
  (page_book ← mapM (formatting_render format base_text name) chunks;
   mret (omap id page_book))
  = (texts ← mapM (fun chunk =>
                     format base_text name (String.concat newline (text <$> chunk)))
               (List.filter nonempty chunks);
     mret ((fun page_text => {| page_text := page_text |}) <$> texts)).
Proof.
  set (render := formatting_render format base_text name).
  induction chunks as [|chunk chunks IH]; [done|].
  unfold mbind, outcome_bind in *. rewrite mapM_outcome_cons.
  destruct chunk as [|line chunk].
  - change (render []) with (Return (A:=option Page) None).
    cbv iota. simpl List.filter.
    by destruct (mapM render chunks) as [pages|e].
  - simpl List.filter. rewrite mapM_outcome_cons.
    change (render (line :: chunk))
      with (match format base_text name (String.concat newline (text <$> line :: chunk)) with
            | Return t => Return (Some {| page_text := t |})
            | Raise e => Raise e
            end).
    destruct (format base_text name _) as [t|e]; [|done].
    destruct (mapM render chunks) as [pages|e];
      destruct (mapM _ (List.filter nonempty chunks)) as [texts|e'];
      unfold mret, outcome_ret in *; simpl in *; simplify_eq; try done.
    do 2 f_equal. exact IH.
Qed.

(** X19.  With [FormattingPageBuilder] and a page sizer that only reads
    the list it is handed, empty chunks never reach the formatter:
    [build_page_book] formats the joined record texts of each chunk that
    is not empty, in chunk order, returns one page for each, and raises
    what the page sizer or the first failing formatting raises.
    [empty_page] without an empty-state text is [empty_page] with the
    empty string for it. *)
Theorem build_page_book_FormattingPageBuilder
    (format : string → string → string → outcome string)
    (base_text name : string) (empty_text : option string)
    sizer asked_quality asked_ordering quality_t w :
  lines (fetcher w) ∈ dom (heap w) →
  page_sizer_reads settings sizer →
  (build_page_book ANY_QUALITY ANY_ORDERING settings asked_quality asked_ordering
     (FormattingPageBuilder format base_text name empty_text) quality_t w).2
  = (chunks ← sizer (filter_view ANY_QUALITY asked_quality quality_t (buffer w));
     texts ← mapM (fun chunk =>
                     format base_text name (String.concat newline (text <$> chunk)))
               (List.filter nonempty chunks);
     mret ((fun page_text => {| page_text := page_text |}) <$> texts))
  ∧ empty_page (FormattingPageBuilder (T:=T) format base_text name None)
    = empty_page (FormattingPageBuilder (T:=T) format base_text name (Some "")).
Proof.
  intros Hdom Hsizer. split; [|done].
  rewrite (build_page_book_plain sizer (formatting_render format base_text name));
    [|by right|done|done|apply FormattingPageBuilder_build_page_reads].
  unfold pages_of. unfold mbind at 1 3, outcome_bind at 1 3.
  destruct (sizer _) as [chunks|e]; [|done].
  apply mapM_formatting_render.
Qed.
End MoreManagerFacts.

Section SortingManagerFacts.
Context {S : Type}.
Variables ANY_QUALITY ANY_ORDERING : Z.
Variable settings : PaginatorSettings Z.
Implicit Types (w : world Z S) (quality_t : option FLAG_T).

Lemma SortingPageBuilder_order_by_eq (base_text : string) (h : gmap loc (list (Line Z)))
    (lines : loc) (asked_ordering : Z) :
  order_by (SortingPageBuilder base_text) lines asked_ordering h
  = (<[fresh (dom h) := ordered_by asked_ordering (h !!! lines)]> h,
     Return (Lines (fresh (dom h)))).
Proof.
  simpl. unfold ordered_by, mbind, St_bind, read_list, alloc_list, write_list, gets, modify.
  simpl. destruct (asked_ordering =? Sorting.FROM_HIGHEST); simpl;
    [|destruct (asked_ordering =? Sorting.FROM_LOWEST); simpl];
    by rewrite ?insert_insert_eq.
Qed.

(** X20.  With the builder of the example, an ordering asked and a page
    sizer that only reads the list it is handed, the pages are cut
    from the filtered records put in the order asked (filter first,
    then order, then chunk), and the buffer of the fetcher keeps its
    records in the order they were fetched. *)
Theorem build_page_book_SortingPageBuilder
    (sizer : list (Line Z) → outcome (list (list (Line Z))))
    asked_quality asked_ordering quality_t w (base_text : string) :
  asked_ordering ≠ ANY_ORDERING →
  lines (fetcher w) ∈ dom (heap w) →
  page_sizer_reads settings sizer →
  let built := build_page_book ANY_QUALITY ANY_ORDERING settings asked_quality
                 asked_ordering (SortingPageBuilder base_text) quality_t w in
  built.2 = pages_of sizer (naive_render base_text)
              (ordered_by asked_ordering
                 (filter_view ANY_QUALITY asked_quality quality_t (buffer w)))
  ∧ buffer built.1 = buffer w.
Proof.
  intros Hne Hdom Hsizer. simpl. split.
  - apply Z.eqb_neq in Hne.
    destruct (filter_lines_by_quality_returns ANY_QUALITY (heap w) (lines (fetcher w))
                asked_quality quality_t) as (h1 & fl & Heq & Hsub & _ & Hview).
    rewrite build_page_book_select, select_lines_spec, Heq, Hne,
      SortingPageBuilder_order_by_eq.
    rewrite (build_pages_reads settings sizer (naive_render base_text)); simpl.
    + by rewrite lookup_total_insert_eq, Hview.
    + done.
    + apply SortingPageBuilder_build_page_reads.
    + rewrite dom_insert. set_solver.
  - apply build_page_book_preserves_buffer; [| | |done].
    + intros _. apply SortingPageBuilder_order_by_preserves.
    + by apply (page_sizer_reads_preserves _ sizer).
    + exact (build_page_reads_preserves _ _
               (SortingPageBuilder_build_page_reads base_text)).
Qed.
End SortingManagerFacts.

(** ** The further statements at work *)

(** [fetch_all_returns] on a source whose second pull raises an [OSError]:
    the exception reaches the caller and the fetcher stays alive. *)
Lemma fetch_all_returns_witness :
  let run := fetch_all scripted_anext 5 Example.broken in
  let w' := (default (Example.broken, Return ()) run).1 in
  let r := (default (Example.broken, Return ()) run).2 in
  run = Some (w', r)
  ∧ ((r = Return () ∧ all_fetched w' = true)
     ∨ ∃ name, r = Raise (OtherException name) ∧ all_fetched w' = false)
  ∧ (_iter_is_alive (fetcher Example.broken) = false → w' = Example.broken)
  ∧ r = Raise (OtherException "OSError").
Proof.
  pose (run := fetch_all scripted_anext 5 Example.broken).
  pose (w' := (default (Example.broken, Return ()) run).1).
  pose (r := (default (Example.broken, Return ()) run).2).
  assert (run = Some (w', r)) as Hrun by (by vm_compute).
  pose proof (fetch_all_returns scripted_anext 5 Example.broken w' r Hrun) as [Hout Hsame].
  split; [exact Hrun|]. split; [exact Hout|]. split; [exact Hsame|]. by vm_compute.
Defined.

(** [fetch_all_drains] on the source of five records with a bound of 3:
    three turns are enough. *)
Lemma fetch_all_drains_witness :
  let w := Example.short in
  let xs := (fun i => mkLine (pretty i) (if i mod 2 =? 0 then 2 else 4) i)
              <$> [1; 2; 3; 4; 5] in
  _iter_is_alive (fetcher w) = true
  ∧ 2 ≤ incremental_fetching_step (fetcher w)
  ∧ drains scripted_anext (_iter (fetcher w)) xs
  ∧ (length xs / Z.to_nat (incremental_fetching_step (fetcher w) - 1) < 3)%nat
  ∧ ∃ w', fetch_all scripted_anext 3 w = Some (w', Return ())
          ∧ buffer w' = buffer w ++ xs
          ∧ all_fetched w' = true.
Proof.
  pose (w := Example.short).
  pose (xs := (fun i => mkLine (pretty i) (if i mod 2 =? 0 then 2 else 4) i)
                <$> [1; 2; 3; 4; 5]).
  assert (_iter_is_alive (fetcher w) = true) as Halive by reflexivity.
  assert (2 ≤ incremental_fetching_step (fetcher w)) as Hstep by (vm_compute; discriminate).
  assert (drains scripted_anext (_iter (fetcher w)) xs) as Hd.
  { exists [], StopAsyncIteration. by vm_compute. }
  assert (length xs / Z.to_nat (incremental_fetching_step (fetcher w) - 1) < 3)%nat
    as Hfuel by (vm_compute; lia).
  split; [exact Halive|]. split; [exact Hstep|]. split; [exact Hd|].
  split; [exact Hfuel|].
  exact (fetch_all_drains scripted_anext 3 w xs Halive Hstep Hd Hfuel).
Defined.

(** [fetching_keeps_average] on a new fetcher: after fetching the whole
    source there is still no forecast. *)
Lemma fetching_keeps_average_witness :
  let w := Example.short in
  let cs : list (call Z) := [FetchMore; FetchAll 10; FetchMore] in
  let run := run_calls scripted_anext Example.ANY_QUALITY Example.ANY_ORDERING
               Example.settings cs w in
  let w' := default w run in
  run = Some w'
  ∧ Forall is_fetch cs
  ∧ _average_page_size (fetcher w') = _average_page_size (fetcher w)
  ∧ (_average_page_size (fetcher w) = 0 → fetched_pages w' = None)
  ∧ length (buffer w') = 5%nat.
Proof.
  pose (w := Example.short).
  pose (cs := [FetchMore; FetchAll 10; FetchMore] : list (call Z)).
  pose (w' := default w (run_calls scripted_anext Example.ANY_QUALITY
                           Example.ANY_ORDERING Example.settings cs w)).
  assert (run_calls scripted_anext Example.ANY_QUALITY Example.ANY_ORDERING
            Example.settings cs w = Some w') as Hrun by (by vm_compute).
  assert (Forall is_fetch cs) as Hcs by (by repeat constructor).
  pose proof (fetching_keeps_average scripted_anext Example.ANY_QUALITY
                Example.ANY_ORDERING Example.settings cs w w' Hrun Hcs) as [Havg Hnone].
  split; [exact Hrun|]. split; [exact Hcs|]. split; [exact Havg|].
  split; [exact Hnone|]. by vm_compute.
Defined.

(** [fetched_pages_bounds] with three records and an average of 1. *)
Lemma fetched_pages_bounds_witness :
  0 < _average_page_size (fetcher paged)
  ∧ ∃ p, fetched_pages paged = Some p
         ∧ (p - 1) * _average_page_size (fetcher paged) < Z.of_nat (length (buffer paged))
         ∧ Z.of_nat (length (buffer paged)) ≤ p * _average_page_size (fetcher paged)
         ∧ (p = 0 ↔ buffer paged = []).
Proof.
  assert (0 < _average_page_size (fetcher paged)) as Hpos by (by vm_compute).
  split; [exact Hpos|].
  exact (fetched_pages_bounds paged Hpos).
Defined.

(** [build_page_book_without_ordering] on the builder of the example,
    asked for the even records in any order. *)
Lemma build_page_book_without_ordering_witness :
  let w := Example.fetched in
  let builder := SortingPageBuilder "Result is: " in
  (Example.ANY_ORDERING = Example.ANY_ORDERING
   ∨ order_by builder = ABCPageBuilder_order_by)
  ∧ lines (fetcher w) ∈ dom (heap w)
  ∧ page_sizer_reads Example.settings (chunked 2)
  ∧ build_page_reads builder (naive_render "Result is: ")
  ∧ (build_page_book Example.ANY_QUALITY Example.ANY_ORDERING Example.settings
       Filters.EVEN Example.ANY_ORDERING builder (Some Filters.new) w).2
    = pages_of (chunked 2) (naive_render "Result is: ")
        (filter_view Example.ANY_QUALITY Filters.EVEN (Some Filters.new) (buffer w)).
Proof.
  assert (Example.ANY_ORDERING = Example.ANY_ORDERING
          ∨ order_by (SortingPageBuilder "Result is: ") = ABCPageBuilder_order_by)
    as Hplain by (by left).
  assert (lines (fetcher Example.fetched) ∈ dom (heap Example.fetched)) as Hdom.
  { apply elem_of_dom. eexists. reflexivity. }
  pose proof (chunked_settings_reads (T:=Z) 2) as Hsizer.
  pose proof (SortingPageBuilder_build_page_reads "Result is: ") as Hbuild.
  split; [exact Hplain|]. split; [exact Hdom|]. split; [exact Hsizer|].
  split; [exact Hbuild|].
  exact (build_page_book_without_ordering Example.ANY_QUALITY Example.ANY_ORDERING
           Example.settings (chunked 2) (naive_render "Result is: ")
           Filters.EVEN Example.ANY_ORDERING
           (SortingPageBuilder "Result is: ") (Some Filters.new) Example.fetched
           Hplain Hdom Hsizer Hbuild).
Defined.

(** [build_page_book_repeatable] on the naive builder, asked twice for
    the odd records. *)
Lemma build_page_book_repeatable_witness :
  let w := Example.fetched in
  let builder := NaivePageBuilder (T:=Z) "Result is: " in
  let first := build_page_book Example.ANY_QUALITY Example.ANY_ORDERING Example.settings
                 Filters.UNEVEN Sorting.FROM_LOWEST builder (Some Filters.new) w in
  let second := build_page_book Example.ANY_QUALITY Example.ANY_ORDERING Example.settings
                  Filters.UNEVEN Sorting.FROM_LOWEST builder (Some Filters.new) first.1 in
  (Sorting.FROM_LOWEST = Example.ANY_ORDERING ∨ order_by builder = ABCPageBuilder_order_by)
  ∧ lines (fetcher w) ∈ dom (heap w)
  ∧ page_sizer_reads Example.settings (chunked 2)
  ∧ build_page_reads builder (naive_render "Result is: ")
  ∧ second.2 = first.2
  ∧ buffer second.1 = buffer w.
Proof.
  assert (Sorting.FROM_LOWEST = Example.ANY_ORDERING
          ∨ order_by (NaivePageBuilder (T:=Z) "Result is: ") = ABCPageBuilder_order_by)
    as Hplain by (by right).
  assert (lines (fetcher Example.fetched) ∈ dom (heap Example.fetched)) as Hdom.
  { apply elem_of_dom. eexists. reflexivity. }
  pose proof (chunked_settings_reads (T:=Z) 2) as Hsizer.
  pose proof (NaivePageBuilder_build_page_reads (T:=Z) "Result is: ") as Hbuild.
  split; [exact Hplain|]. split; [exact Hdom|]. split; [exact Hsizer|].
  split; [exact Hbuild|].
  exact (build_page_book_repeatable Example.ANY_QUALITY Example.ANY_ORDERING
           Example.settings (chunked 2) (naive_render "Result is: ")
           Filters.UNEVEN Sorting.FROM_LOWEST
           (NaivePageBuilder "Result is: ") (Some Filters.new) Example.fetched
           Hplain Hdom Hsizer Hbuild).
Defined.

(** [fetched_pages_covers_page_book] on the three fetched records, paged
    two by two: two pages are built, the average is 1, and three pages
    are forecast. *)
Lemma fetched_pages_covers_page_book_witness :
  let w := Example.fetched in
  let builder := NaivePageBuilder (T:=Z) "Result is: " in
  let built := build_page_book Example.ANY_QUALITY Example.ANY_ORDERING Example.settings
                 Example.ANY_QUALITY Example.ANY_ORDERING builder None w in
  let page_book :=
    [{| page_text := "Result is: " +:+ newline +:+ "1" +:+ newline +:+ "2" |};
     {| page_text := "Result is: " +:+ newline +:+ "3" |}] in
  (Example.ANY_ORDERING = Example.ANY_ORDERING
   ∨ order_by builder = ABCPageBuilder_order_by)
  ∧ lines (fetcher w) ∈ dom (heap w)
  ∧ page_sizer_preserves Example.settings
  ∧ build_page_preserves builder
  ∧ built.2 = Return page_book
  ∧ page_book ≠ []
  ∧ fetched_pages built.1 = Some 3
  ∧ Z.of_nat (length page_book) ≤ 3.
Proof.
  pose (builder := NaivePageBuilder (T:=Z) "Result is: ").
  pose (page_book :=
    [{| page_text := "Result is: " +:+ newline +:+ "1" +:+ newline +:+ "2" |};
     {| page_text := "Result is: " +:+ newline +:+ "3" |}]).
  assert (Example.ANY_ORDERING = Example.ANY_ORDERING
          ∨ order_by builder = ABCPageBuilder_order_by) as Hplain by (by left).
  assert (lines (fetcher Example.fetched) ∈ dom (heap Example.fetched)) as Hdom.
  { apply elem_of_dom. eexists. reflexivity. }
  pose proof (chunked_settings_preserves (T:=Z) 2) as Hsizer.
  pose proof (build_page_reads_preserves _ _
                (NaivePageBuilder_build_page_reads (T:=Z) "Result is: ")) as Hbuild.
  assert ((build_page_book Example.ANY_QUALITY Example.ANY_ORDERING Example.settings
             Example.ANY_QUALITY Example.ANY_ORDERING builder None Example.fetched).2
          = Return page_book) as Hbook by (by vm_compute).
  assert (page_book ≠ []) as Hne by discriminate.
  assert (fetched_pages
            (build_page_book Example.ANY_QUALITY Example.ANY_ORDERING Example.settings
               Example.ANY_QUALITY Example.ANY_ORDERING builder None Example.fetched).1
          = Some 3) as Hpages by (by vm_compute).
  split; [exact Hplain|]. split; [exact Hdom|]. split; [exact Hsizer|].
  split; [exact Hbuild|]. split; [exact Hbook|].
  split; [exact Hne|]. split; [exact Hpages|].
  exact (fetched_pages_covers_page_book Example.ANY_QUALITY Example.ANY_ORDERING
           Example.settings Example.ANY_QUALITY Example.ANY_ORDERING builder None
           Example.fetched page_book 3 Hplain Hdom Hsizer Hbuild Hbook Hne Hpages).
Defined.

(** [build_page_book_SortingPageBuilder] on the three fetched records,
    asked for the odd ones from the highest to the lowest. *)
Lemma build_page_book_SortingPageBuilder_witness :
  let w := Example.fetched in
  let built := build_page_book Example.ANY_QUALITY Example.ANY_ORDERING Example.settings
                 Filters.UNEVEN Sorting.FROM_HIGHEST (SortingPageBuilder "Result is: ")
                 (Some Filters.new) w in
  Sorting.FROM_HIGHEST ≠ Example.ANY_ORDERING
  ∧ lines (fetcher w) ∈ dom (heap w)
  ∧ page_sizer_reads Example.settings (chunked 2)
  ∧ built.2 = pages_of (chunked 2) (naive_render "Result is: ")
                (ordered_by Sorting.FROM_HIGHEST
                   (filter_view Example.ANY_QUALITY Filters.UNEVEN (Some Filters.new)
                      (buffer w)))
  ∧ buffer built.1 = buffer w.
Proof.
  assert (Sorting.FROM_HIGHEST ≠ Example.ANY_ORDERING) as Hne by (vm_compute; discriminate).
  assert (lines (fetcher Example.fetched) ∈ dom (heap Example.fetched)) as Hdom.
  { apply elem_of_dom. eexists. reflexivity. }
  pose proof (chunked_settings_reads (T:=Z) 2) as Hsizer.
  split; [exact Hne|]. split; [exact Hdom|]. split; [exact Hsizer|].
  exact (build_page_book_SortingPageBuilder Example.ANY_QUALITY Example.ANY_ORDERING
           Example.settings (chunked 2) Filters.UNEVEN Sorting.FROM_HIGHEST
           (Some Filters.new) Example.fetched "Result is: " Hne Hdom Hsizer).
Defined.

(** The records those pages are cut from: 3, then 1. *)
Example ordered_uneven :
  ordered_by Sorting.FROM_HIGHEST
    (filter_view Example.ANY_QUALITY Filters.UNEVEN (Some Filters.new)
       (buffer Example.fetched))
  = [mkLine "3" 4 3; mkLine "1" 4 1].
Proof. by vm_compute. Qed.

(** [build_page_book_NaivePageBuilder] on the three fetched records,
    paged two by two. *)
Lemma build_page_book_NaivePageBuilder_witness :
  let w := Example.fetched in
  lines (fetcher w) ∈ dom (heap w)
  ∧ page_sizer_reads Example.settings (chunked 2)
  ∧ (build_page_book Example.ANY_QUALITY Example.ANY_ORDERING Example.settings
       Example.ANY_QUALITY Example.ANY_ORDERING (NaivePageBuilder "Result is: ")
       (Some Filters.new) w).2
    = match chunked 2 (filter_view Example.ANY_QUALITY Example.ANY_QUALITY
                         (Some Filters.new) (buffer w)) with
      | Return chunks => Return (naive_page "Result is: " <$> List.filter nonempty chunks)
      | Raise e => Raise e
      end.
Proof.
  assert (lines (fetcher Example.fetched) ∈ dom (heap Example.fetched)) as Hdom.
  { apply elem_of_dom. eexists. reflexivity. }
  pose proof (chunked_settings_reads (T:=Z) 2) as Hsizer.
  split; [exact Hdom|]. split; [exact Hsizer|].
  exact (build_page_book_NaivePageBuilder Example.ANY_QUALITY Example.ANY_ORDERING
           Example.settings (chunked 2) Example.ANY_QUALITY Example.ANY_ORDERING
           (Some Filters.new) Example.fetched "Result is: " Hdom Hsizer).
Defined.

(** [build_page_book_FormattingPageBuilder] on the same, with a
    formatter that puts the value in the place of the template. *)
Lemma build_page_book_FormattingPageBuilder_witness :
  let w := Example.fetched in
  let format := fun template name value : string => Return value in
  lines (fetcher w) ∈ dom (heap w)
  ∧ page_sizer_reads Example.settings (chunked 2)
  ∧ (build_page_book Example.ANY_QUALITY Example.ANY_ORDERING Example.settings
       Example.ANY_QUALITY Example.ANY_ORDERING
       (FormattingPageBuilder format "{lines}" "lines" None) (Some Filters.new) w).2
    = (chunks ← chunked 2 (filter_view Example.ANY_QUALITY Example.ANY_QUALITY
                             (Some Filters.new) (buffer w));
       texts ← mapM (fun chunk =>
                       format "{lines}" "lines" (String.concat newline (text <$> chunk)))
                 (List.filter nonempty chunks);
       mret ((fun page_text => {| page_text := page_text |}) <$> texts))
  ∧ empty_page (FormattingPageBuilder (T:=Z) format "{lines}" "lines" None)
    = empty_page (FormattingPageBuilder (T:=Z) format "{lines}" "lines" (Some "")).
Proof.
  assert (lines (fetcher Example.fetched) ∈ dom (heap Example.fetched)) as Hdom.
  { apply elem_of_dom. eexists. reflexivity. }
  pose proof (chunked_settings_reads (T:=Z) 2) as Hsizer.
  split; [exact Hdom|]. split; [exact Hsizer|].
  exact (build_page_book_FormattingPageBuilder Example.ANY_QUALITY Example.ANY_ORDERING
           Example.settings (fun template name value : string => Return value)
           "{lines}" "lines" None (chunked 2) Example.ANY_QUALITY Example.ANY_ORDERING
           (Some Filters.new) Example.fetched Hdom Hsizer).
Defined.

(** The pages of those two calls. *)
Example build_page_book_two_pages :
  (build_page_book Example.ANY_QUALITY Example.ANY_ORDERING Example.settings
     Example.ANY_QUALITY Example.ANY_ORDERING (NaivePageBuilder "Result is: ")
     (Some Filters.new) Example.fetched).2
  = Return [{| page_text := "Result is: " +:+ newline +:+ "1" +:+ newline +:+ "2" |};
            {| page_text := "Result is: " +:+ newline +:+ "3" |}]
  ∧ (build_page_book Example.ANY_QUALITY Example.ANY_ORDERING Example.settings
       Example.ANY_QUALITY Example.ANY_ORDERING
       (FormattingPageBuilder (fun template name value : string => Return value)
          "{lines}" "lines" None) (Some Filters.new) Example.fetched).2
    = Return [{| page_text := "1" +:+ newline +:+ "2" |}; {| page_text := "3" |}].
Proof. by vm_compute. Qed.
